(** * dnsbrute: the DNS resolution core of [lib/dns.py]

    A shallow embedding of [lib/dns.py]: the [Record] value type, the
    authoritative-resolver bootstrap ([_query_ns]), the wildcard baseline
    populator ([_query_pan_dns]), the query pipeline ([query_a_cname],
    [query_loop]), the domain helpers ([_parent_domain],
    [_is_root_domain]) and the wildcard decision ([_is_pan_dns]).

    The module-level globals [_resolver], [_black_list] and [_psl] are the
    fields of an explicit [State]; every DNS question that the code sends is
    appended to a [trace], and every call of [lib.log] to [log].  The
    answers of the network are an oracle that may depend on the questions
    asked so far. *)

From Stdlib Require Import ZArith Ascii String List Bool Lia.
From stdpp Require Import gmap strings list fin_maps.

Local Open Scope string_scope.
Local Open Scope Z_scope.

(** ** Python values used by the module *)

(** [pycares.QUERY_TYPE_NS], [QUERY_TYPE_A], [QUERY_TYPE_CNAME]; the
    strings "NS", "A", "CNAME" handed to [aiodns] denote the same kinds. *)
Inductive QueryType := QUERY_TYPE_NS | QUERY_TYPE_A | QUERY_TYPE_CNAME.

Definition QueryType_eqb (a b : QueryType) : bool :=
  match a, b with
  | QUERY_TYPE_NS, QUERY_TYPE_NS => true
  | QUERY_TYPE_A, QUERY_TYPE_A => true
  | QUERY_TYPE_CNAME, QUERY_TYPE_CNAME => true
  | _, _ => false
  end.

(** class [Record].  The constructor's [ValueError] for a [query_type]
    outside the three constants cannot happen for a [QueryType]. *)
Record DNSRecord := mkRecord {
  domain : string;
  type : QueryType;
  ttl : Z;
  answer : list string
}.

(** [Record.__init__]: [self.answer = answer if answer else []]. *)
Definition Record__init__ (domain_ : string) (query_type : QueryType)
    (ttl_ : Z) (answer_ : list string) : DNSRecord :=
  {| domain := domain_;
     type := query_type;
     ttl := ttl_;
     answer := match answer_ with [] => [] | _ :: _ => answer_ end |}.

(** One element of the list that [aiodns] returns for an NS or an A
    question ([.host], [.ttl]). *)
Record HostResult := mkHost { host : string; host_ttl : Z }.

(** The object that [aiodns] returns for a CNAME question ([.cname],
    [.ttl]). *)
Record CnameResult := mkCname { cname : string; cname_ttl : Z }.

(** Python truth of an integer: [if records.ttl]. *)
Definition truthy (z : Z) : bool := negb (z =? 0).

(** [x in l] for a [str] [x] and a list of [str]. *)
Definition str_in (x : string) (l : list string) : bool :=
  existsb (String.eqb x) l.

(** The operand of an [in] test in [_query_pan_dns] is either a string or
    a result object of an A question. *)
Inductive PyObj := PyStr (s : string) | PyHostResult (r : HostResult).

(** [x in l] where [l] holds only [str]: a result object is never equal to
    a [str]. *)
Definition py_in (x : PyObj) (l : list string) : bool :=
  match x with
  | PyStr s => str_in s l
  | PyHostResult _ => false
  end.

(** ** Strings *)

(** [s.index(c)] for a one-character [c]: the position of the first
    occurrence, [None] where Python raises [ValueError]. *)
Fixpoint str_index (c : ascii) (s : string) : option nat :=
  match s with
  | EmptyString => None
  | String a s' =>
      if Ascii.eqb a c then Some O
      else match str_index c s' with
           | Some i => Some (S i)
           | None => None
           end
  end.

(** The slice [s[n:]]. *)
Fixpoint str_from (n : nat) (s : string) : string :=
  match n, s with
  | O, _ => s
  | S n', EmptyString => EmptyString
  | S n', String _ s' => str_from n' s'
  end.

(** A [str] is a sequence of code points below 256 here;
    [s.encode("ascii")] succeeds when all of them are below 128. *)
Definition is_ascii (s : string) : bool :=
  forallb (fun c => (nat_of_ascii c <? 128)%nat) (list_ascii_of_string s).

Definition has_dot (s : string) : bool :=
  existsb (fun c => Ascii.eqb c ".") (list_ascii_of_string s).

(** ** Exceptions and outcomes *)

Inductive Exn :=
| ValueError
| KeyError (key : string)
| AttributeError
| UnicodeEncodeError
| DNSError                (* [aiodns.error.DNSError] or a timeout *)
| SystemExit (code : Z).

(** [except Exception] does not catch [SystemExit]; a bare [except:]
    catches everything. *)
Definition is_Exception (e : Exn) : bool :=
  match e with SystemExit _ => false | _ => true end.

Inductive Outcome (A : Type) :=
| Return (a : A)
| Raise (e : Exn).
Arguments Return {A} a.
Arguments Raise {A} e.

(** ** Resolvers, questions and the network *)

(** The three places where the module builds a resolver. *)
Inductive Resolver :=
| DefaultResolver                       (* [aiodns.DNSResolver()] *)
| SharedResolver (ns : gset string)     (* the global [_resolver] *)
| FreshResolver (ns : gset string).     (* [aiodns.DNSResolver(_resolver.nameservers)] *)

Record Query := mkQuery {
  q_via : Resolver;
  q_name : string;
  q_type : QueryType
}.

(** What the network answers to a question, given the questions sent
    before it.  [None]: the awaited query raised (error, NXDOMAIN or the
    3 second timeout). *)
Record Network := mkNetwork {
  answer_hosts : list Query -> Query -> option (list HostResult);
  answer_cname : list Query -> Query -> option CnameResult
}.

Inductive LogEntry :=
| LogError (domain_ : string) (ns_records : list HostResult) (exception : option Exn)
| LogDebugNs (domain_ : string) (ns_servers : gset string)
| LogDebugPan (domain_ : string) (answer_ : list string)
| LogInfo (record : DNSRecord).

(** ** The state of the process *)

Record State := mkState {
  _resolver : option (gset string);
  _black_list : gmap string DNSRecord;
  _psl : option (string -> string);
  trace : list Query;
  log : list LogEntry
}.

Definition set_resolver (r : option (gset string)) (st : State) : State :=
  {| _resolver := r; _black_list := _black_list st; _psl := _psl st;
     trace := trace st; log := log st |}.

Definition set_black_list (b : gmap string DNSRecord) (st : State) : State :=
  {| _resolver := _resolver st; _black_list := b; _psl := _psl st;
     trace := trace st; log := log st |}.

Definition set_psl (p : option (string -> string)) (st : State) : State :=
  {| _resolver := _resolver st; _black_list := _black_list st; _psl := p;
     trace := trace st; log := log st |}.

Definition add_trace (q : Query) (st : State) : State :=
  {| _resolver := _resolver st; _black_list := _black_list st; _psl := _psl st;
     trace := trace st ++ [q]; log := log st |}.

Definition add_log (e : LogEntry) (st : State) : State :=
  {| _resolver := _resolver st; _black_list := _black_list st; _psl := _psl st;
     trace := trace st; log := log st ++ [e] |}.

(** The state at import time. *)
Definition initial_state : State :=
  {| _resolver := None; _black_list := ∅; _psl := None; trace := []; log := [] |}.

(** ** State and exception monad *)

Definition M (A : Type) : Type := State -> Outcome A * State.

Definition ret {A} (a : A) : M A := fun st => (Return a, st).

Definition raise {A} (e : Exn) : M A := fun st => (Raise e, st).

Definition bind {A B} (m : M A) (k : A -> M B) : M B :=
  fun st =>
    match m st with
    | (Return a, st') => k a st'
    | (Raise e, st') => (Raise e, st')
    end.

Notation "'let*' x ':=' m 'in' k" := (bind m (fun x => k))
  (at level 10, x name, m at level 100, k at level 200).
Notation "m ';;' k" := (bind m (fun _ => k))
  (at level 100, k at level 200, right associativity).

Definition gets {A} (f : State -> A) : M A := fun st => (Return (f st), st).

Definition modify (f : State -> State) : M unit := fun st => (Return tt, f st).

(** [try: m / except: ...] with a bare [except]: the outcome as a value. *)
Definition try_except {A} (m : M A) : M (option A) :=
  fun st =>
    match m st with
    | (Return a, st') => (Return (Some a), st')
    | (Raise _, st') => (Return None, st')
    end.

(** [try: m / except Exception as ex: ...]. *)
Definition try_except_Exception {A} (m : M A) : M (A + Exn) :=
  fun st =>
    match m st with
    | (Return a, st') => (Return (inl a), st')
    | (Raise e, st') =>
        if is_Exception e then (Return (inr e), st') else (Raise e, st')
    end.

(** [thread = threading.Thread(target=m); thread.start(); thread.join()]:
    the target runs to its end on the shared globals; an exception that
    leaves the target ends the thread only ([SystemExit] silently, any
    other with a traceback), and the caller goes on after [join]. *)
Definition run_thread (target : M unit) : M unit :=
  fun st => (Return tt, snd (target st)).

(** ** The module *)

Section Dns.

(** The network the process talks to. *)
Variable net : Network.

(** [hashlib.md5(b).hexdigest()] on the bytes of an ASCII string. *)
Variable md5_hexdigest : string -> string.

(** [PublicSuffixList(fd).get_public_suffix] for the data file
    [dict/public_suffix_list.dat], which is taken to be readable. *)
Variable public_suffix_list_dat : string -> string.

(** [await resolver.query(name, t)] under [async_timeout.timeout(_Timeout)]
    for an NS or an A question: the question is sent, then the answer is
    returned or the failure raised. *)
Definition query_hosts (via : Resolver) (name : string) (t : QueryType)
    : M (list HostResult) :=
  fun st =>
    let q := mkQuery via name t in
    match answer_hosts net (trace st) q with
    | Some records => (Return records, add_trace q st)
    | None => (Raise DNSError, add_trace q st)
    end.

(** The same for a CNAME question. *)
Definition query_cname (via : Resolver) (name : string) : M CnameResult :=
  fun st =>
    let q := mkQuery via name QUERY_TYPE_CNAME in
    match answer_cname net (trace st) q with
    | Some records => (Return records, add_trace q st)
    | None => (Raise DNSError, add_trace q st)
    end.

(** [loop.run_until_complete] of [asyncio.gather] over the coroutines
    [ms], without [return_exceptions]: every coroutine is started and sends
    its question; the list of results is returned when all succeed,
    otherwise the exception of a failed one leaves [gather]. *)
Fixpoint gather {A} (ms : list (M A)) : M (list A) :=
  match ms with
  | [] => ret []
  | m :: ms' =>
      fun st =>
        match m st with
        | (Return a, st1) =>
            match gather ms' st1 with
            | (Return l, st2) => (Return (a :: l), st2)
            | (Raise e, st2) => (Raise e, st2)
            end
        | (Raise e, st1) => (Raise e, snd (gather ms' st1))
        end
  end.

(** *** [_is_root_domain] and [_parent_domain] *)

Definition _is_root_domain (domain_ : string) : M bool :=
  let* psl := gets _psl in
  let* psl :=
    match psl with
    | Some p => ret p
    | None =>
        modify (set_psl (Some public_suffix_list_dat));;
        ret public_suffix_list_dat
    end in
  ret (String.eqb domain_ (psl domain_)).

Definition _parent_domain (domain_ : string) : M string :=
  let* root := _is_root_domain domain_ in
  if root then ret domain_
  else
    match str_index "." domain_ with
    | Some i => ret (str_from (i + 1) domain_)
    | None => raise ValueError
    end.

(** *** [_query_ns] *)

(** The two nested loops that fill [ns_servers]. *)
Definition collect_ns_servers (a_records : list (list HostResult)) : gset string :=
  fold_left
    (fun ns_servers a_record =>
       fold_left (fun ns_servers a => ns_servers ∪ {[ host a ]}) a_record ns_servers)
    a_records ∅.

(** [_resolver] holds the set of nameservers handed to
    [aiodns.DNSResolver(ns_servers, loop)].  The library binds the resolver
    to that set when it is not empty; handed an empty set it keeps its
    default nameservers. *)
Definition _query_ns (domain_ : string) : M unit :=
  let* r := try_except_Exception (query_hosts DefaultResolver domain_ QUERY_TYPE_NS) in
  let ns_records := match r with inl l => l | inr _ => [] end in
  let exception := match r with inl _ => None | inr ex => Some ex end in
  if bool_decide (is_Some exception) || bool_decide (ns_records = [])
  then
    modify (add_log (LogError domain_ ns_records exception));;
    raise (SystemExit 1)
  else
    let* a_records :=
      gather (map (fun ns_record =>
                     query_hosts DefaultResolver (host ns_record) QUERY_TYPE_A)
                  ns_records) in
    let ns_servers := collect_ns_servers a_records in
    modify (add_log (LogDebugNs domain_ ns_servers));;
    modify (set_resolver (Some ns_servers)).

(** *** Questions through a resolver object *)

(** What [resolver.query(name, query_type)] returns: a list of results
    for "NS" and "A", one result object for "CNAME". *)
Inductive Records :=
| HostRecords (l : list HostResult)
| CnameRecords (c : CnameResult).

Definition resolver_query (via : Resolver) (name : string) (query_type : QueryType)
    : M Records :=
  match query_type with
  | QUERY_TYPE_CNAME =>
      let* c := query_cname via name in ret (CnameRecords c)
  | _ =>
      let* l := query_hosts via name query_type in ret (HostRecords l)
  end.

(** [_resolver.query(name, query_type)] on the global: an
    [AttributeError] while [_resolver] is still [None]. *)
Definition _resolver_query (name : string) (query_type : QueryType) : M Records :=
  let* r := gets _resolver in
  match r with
  | None => raise AttributeError
  | Some ns => resolver_query (SharedResolver ns) name query_type
  end.

(** A [for] loop without [break] that updates one local. *)
Fixpoint for_each {A B} (xs : list A) (body : A -> B -> M B) (b : B) : M B :=
  match xs with
  | [] => ret b
  | x :: xs' => let* b' := body x b in for_each xs' body b'
  end.

(** *** [_query_pan_dns] *)

Definition append_answer (a : string) (record : DNSRecord) : DNSRecord :=
  {| domain := domain record; type := type record; ttl := ttl record;
     answer := answer record ++ [a] |}.

Definition set_ttl (t : Z) (record : DNSRecord) : DNSRecord :=
  {| domain := domain record; type := type record; ttl := t;
     answer := answer record |}.

(** The [else] block of the loop body: what an answer does to the
    accumulating [record]. *)
Definition pan_dns_update (query_type : QueryType) (records : Records)
    (record : DNSRecord) : DNSRecord :=
  match query_type, records with
  | QUERY_TYPE_CNAME, CnameRecords records =>
      if negb (py_in (PyStr (cname records)) (answer record)) then
        let record := append_answer (cname records) record in
        if truthy (cname_ttl records) then set_ttl (cname_ttl records) record
        else record
      else record
  | QUERY_TYPE_A, HostRecords ((first :: _) as records) =>
      let record :=
        fold_left
          (fun record record_ =>
             if negb (py_in (PyHostResult record_) (answer record))
             then append_answer (host record_) record
             else record)
          records record in
      set_ttl (host_ttl first) record
  | _, _ => record
  end.

Definition pan_dns_iteration (resolver : Resolver) (sub_domain : string)
    (query_type : QueryType) (record : DNSRecord) : M DNSRecord :=
  let* r := try_except (resolver_query resolver sub_domain query_type) in
  match r with
  | None => ret record
  | Some records => ret (pan_dns_update query_type records record)
  end.

Definition synthetic_name (domain_ : string) : string :=
  md5_hexdigest domain_ ++ "." ++ domain_.

Definition _query_pan_dns (domain_ : string) : M unit :=
  let* r := gets _resolver in
  match r with
  | None => raise AttributeError
  | Some nameservers =>
      let resolver := FreshResolver nameservers in
      if negb (is_ascii domain_) then raise UnicodeEncodeError
      else
        let sub_domain := synthetic_name domain_ in
        let record := Record__init__ domain_ QUERY_TYPE_A (-1) [] in
        let* record :=
          for_each [QUERY_TYPE_A; QUERY_TYPE_CNAME]
                   (pan_dns_iteration resolver sub_domain) record in
        (match answer record with
         | [] => ret tt
         | _ :: _ => modify (add_log (LogDebugPan domain_ (answer record)))
         end);;
        let* black_list := gets _black_list in
        modify (set_black_list (<[domain_ := record]> black_list))
  end.

(** *** [_is_pan_dns] *)

(** [all([answer in pan_dns_record.answer for answer in record.answer])]. *)
Definition all_in (record pan_dns_record : DNSRecord) : bool :=
  forallb (fun answer_ => str_in answer_ (answer pan_dns_record)) (answer record).

Definition _is_pan_dns (record : DNSRecord) : M bool :=
  let* black_list := gets _black_list in
  let* parent := _parent_domain (domain record) in
  match black_list !! parent with
  | None => raise (KeyError parent)
  | Some pan_dns_record =>
      match answer pan_dns_record with
      | [] => ret false
      | _ :: _ =>
          if QueryType_eqb (type record) QUERY_TYPE_CNAME && all_in record pan_dns_record
          then ret true
          else if all_in record pan_dns_record && (ttl record =? ttl pan_dns_record)
          then ret true
          else ret false
      end
  end.

(** *** [query_a_cname] *)

(** The [else] block of the lookup loop. *)
Definition candidate (domain_ : string) (query_type : QueryType) (records : Records)
    (record : option DNSRecord) : option DNSRecord :=
  match query_type, records with
  | QUERY_TYPE_CNAME, CnameRecords records =>
      Some (Record__init__ domain_ QUERY_TYPE_CNAME
              (if truthy (cname_ttl records) then cname_ttl records else -1)
              [cname records])
  | QUERY_TYPE_A, HostRecords ((first :: _) as records) =>
      Some (Record__init__ domain_ QUERY_TYPE_A (host_ttl first) (map host records))
  | _, _ => record
  end.

(** The [for query_type in ...] loop with its [break]. *)
Fixpoint lookup_loop (domain_ : string) (query_types : list QueryType)
    (record : option DNSRecord) : M (option DNSRecord) :=
  match query_types with
  | [] => ret record
  | query_type :: rest =>
      let* r := try_except (_resolver_query domain_ query_type) in
      match r with
      | None => lookup_loop domain_ rest record
      | Some records =>
          let record := candidate domain_ query_type records record in
          match record with
          | Some _ => ret record
          | None => lookup_loop domain_ rest record
          end
      end
  end.

(** The first block of [query_a_cname]: the baseline of the parent is
    built when the parent is not a key of [_black_list]. *)
Definition ensure_baseline (parent_domain : string) : M unit :=
  let* black_list := gets _black_list in
  match black_list !! parent_domain with
  | None => run_thread (_query_pan_dns parent_domain)
  | Some _ => ret tt
  end.

Definition query_a_cname (domain_ : string) : M (option DNSRecord) :=
  let* parent_domain := _parent_domain domain_ in
  ensure_baseline parent_domain;;
  let* record := lookup_loop domain_ [QUERY_TYPE_A; QUERY_TYPE_CNAME] None in
  match record with
  | Some r =>
      let* pan := _is_pan_dns r in
      ret (if pan then None else Some r)
  | None => ret None
  end.

(** *** [query_loop] *)

(** How the coroutine leaves the [while True] loop on a queue with these
    items: it returns at the sentinel [None], or stays suspended in
    [queue.get()] when the items run out. *)
Inductive LoopEnd := Finished | AwaitingQueue.

Fixpoint consume (queue : list (option string)) : M LoopEnd :=
  match queue with
  | [] => ret AwaitingQueue
  | None :: _ => ret Finished
  | Some sub_domain :: queue' =>
      let* record := query_a_cname sub_domain in
      (match record with
       | Some r => modify (add_log (LogInfo r))
       | None => ret tt
       end);;
      consume queue'
  end.

Definition query_loop (domain_ : string) (queue : list (option string)) : M LoopEnd :=
  let* r := gets _resolver in
  (match r with
   | None => run_thread (_query_ns domain_)
   | Some _ => ret tt
   end);;
  consume queue.

End Dns.

(** ** Labels of a name, as the specification speaks of them *)

(** The labels of a name: its pieces between the "." characters. *)
Fixpoint split_dot (s : string) : list string :=
  match s with
  | EmptyString => [EmptyString]
  | String c s' =>
      if Ascii.eqb c "." then EmptyString :: split_dot s'
      else match split_dot s' with
           | l :: ls => String c l :: ls
           | [] => [String c EmptyString]
           end
  end.

Fixpoint join_dot (ls : list string) : string :=
  match ls with
  | [] => EmptyString
  | l :: ls' =>
      match ls' with
      | [] => l
      | _ :: _ => l ++ "." ++ join_dot ls'
      end
  end.

(** "Strips the leftmost label and returns the remainder". *)
Definition strip_leftmost_label (s : string) : string :=
  join_dot (tail (split_dot s)).

(** ** Example data *)

Definition lower_ascii (c : ascii) : ascii :=
  let n := nat_of_ascii c in
  if ((65 <=? n) && (n <=? 90))%nat then ascii_of_nat (n + 32) else c.

Fixpoint lower (s : string) : string :=
  match s with
  | EmptyString => EmptyString
  | String c s' => String (lower_ascii c) (lower s')
  end.

(** A public-suffix function with one-label suffixes only: the registrable
    root of a name is made of its last two labels, lower-cased; a name of
    one label is its own root once lower-cased. *)
Definition psl_example (d : string) : string :=
  let ls := split_dot (lower d) in
  join_dot (drop (length ls - 2) ls).

(** A stand-in for the digest: the MD5 of "example.com", and a fixed
    word of 32 hexadecimal digits elsewhere. *)
Definition md5_example (s : string) : string :=
  if String.eqb s "example.com" then "5ababd603b22780302dd8d83498e5172"
  else "00000000000000000000000000000000".


(** ** Vocabulary of the statements *)

(** The public-suffix function that a call of [_is_root_domain] uses in a
    state: the loaded one, or the data file on the first call. *)
Definition psl_in (psl : string -> string) (st : State) : string -> string :=
  match _psl st with
  | Some p => p
  | None => psl
  end.

Section Vocabulary.

Variable net : Network.
Variable md5_hexdigest : string -> string.
Variable psl : string -> string.

(** The questions of the lookup loop for a domain. *)
Definition question_A (ns : gset string) (d : string) : Query :=
  mkQuery (SharedResolver ns) d QUERY_TYPE_A.

Definition question_CNAME (ns : gset string) (d : string) : Query :=
  mkQuery (SharedResolver ns) d QUERY_TYPE_CNAME.

(** The questions of the baseline populator for a parent domain. *)
Definition baseline_A (ns : gset string) (p : string) : Query :=
  mkQuery (FreshResolver ns) (synthetic_name md5_hexdigest p) QUERY_TYPE_A.

Definition baseline_CNAME (ns : gset string) (p : string) : Query :=
  mkQuery (FreshResolver ns) (synthetic_name md5_hexdigest p) QUERY_TYPE_CNAME.

(** The bootstrap: its NS question, the A question for a nameserver
    host, and the A lookups of the hosts. *)
Definition question_host (ns_record : HostResult) : Query :=
  mkQuery DefaultResolver (host ns_record) QUERY_TYPE_A.

Definition question_NS (root : string) : Query :=
  mkQuery DefaultResolver root QUERY_TYPE_NS.

Definition ns_host_lookups (ns_records : list HostResult) : list (M (list HostResult)) :=
  map (fun ns_record => query_hosts net DefaultResolver (host ns_record) QUERY_TYPE_A)
      ns_records.

(** The record of kind A that the lookup loop builds. *)
Definition record_A (d : string) (first : HostResult) (rest : list HostResult) : DNSRecord :=
  mkRecord d QUERY_TYPE_A (host_ttl first) (map host (first :: rest)).

(** The record of kind CNAME that the lookup loop builds. *)
Definition record_CNAME (d : string) (c : CnameResult) : DNSRecord :=
  mkRecord d QUERY_TYPE_CNAME
    (if truthy (cname_ttl c) then cname_ttl c else -1) [cname c].

(** The record that the populator accumulates from the two answers. *)
Definition baseline_record (p : string) (a : option (list HostResult))
    (c : option CnameResult) : DNSRecord :=
  let record0 := Record__init__ p QUERY_TYPE_A (-1) [] in
  let record1 :=
    match a with
    | Some records => pan_dns_update QUERY_TYPE_A (HostRecords records) record0
    | None => record0
    end in
  match c with
  | Some records => pan_dns_update QUERY_TYPE_CNAME (CnameRecords records) record1
  | None => record1
  end.

(** The state in which the lookup loop of [query_a_cname d] starts: the
    parent is computed and its baseline is in place or was attempted. *)
Definition before_lookup (d : string) (st : State) : State :=
  match _parent_domain psl d st with
  | (Return p, st1) => snd (ensure_baseline net md5_hexdigest p st1)
  | (Raise _, st1) => st1
  end.

(** What [query_a_cname] returns for a candidate record and the verdict
    of [_is_pan_dns] on it. *)
Definition report (r : DNSRecord) (pan : Outcome bool) : Outcome (option DNSRecord) :=
  match pan with
  | Return true => Return None
  | Return false => Return (Some r)
  | Raise e => Raise e
  end.

(** A question of the baseline populator. *)
Definition is_baseline_query (q : Query) : bool :=
  match q_via q with
  | FreshResolver _ => true
  | _ => false
  end.

(** The baseline questions in a trace. *)
Definition baseline_queries (t : list Query) : list Query :=
  List.filter is_baseline_query t.

(** How many baseline questions of one kind a trace holds for a parent. *)
Definition asks_baseline (p : string) (ty : QueryType) (q : Query) : bool :=
  is_baseline_query q && QueryType_eqb (q_type q) ty
  && String.eqb (q_name q) (synthetic_name md5_hexdigest p).

Definition baseline_count (p : string) (ty : QueryType) (t : list Query) : nat :=
  length (List.filter (asks_baseline p ty) t).

(** A step that sends no baseline question and leaves the cache alone. *)
Definition quiet_step (st st' : State) : Prop :=
  exists sq,
    trace st' = (trace st ++ sq)%list /\
    Forall (fun q => is_baseline_query q = false) sq /\
    _black_list st' = _black_list st.

(** A step that populates the baseline of a parent that was not cached. *)
Definition populate_step (st st' : State) : Prop :=
  exists p ns r sq,
    _black_list st !! p = None /\
    trace st' = (trace st ++ [baseline_A ns p;
                              baseline_CNAME ns p] ++ sq)%list /\
    Forall (fun q => is_baseline_query q = false) sq /\
    _black_list st' = <[p := r]> (_black_list st).

(** Every parent has at most one baseline question of each kind in the
    trace, and none while it is not cached. *)
Definition once_invariant (st : State) : Prop :=
  forall p ty,
    (baseline_count p ty (trace st) <= 1)%nat /\
    (_black_list st !! p = None -> baseline_count p ty (trace st) = 0%nat).

(** C8 as the specification states it, at one domain in one state: the
    domain itself on a root domain, and the remainder after the leftmost
    label on every other domain. *)
Definition parent_domain_as_stated (d : string) (st : State) : Prop :=
  (fst (_is_root_domain psl d st) = Return true ->
   fst (_parent_domain psl d st) = Return d) /\
  (fst (_is_root_domain psl d st) = Return false ->
   fst (_parent_domain psl d st) = Return (strip_leftmost_label d)).

(** C1 as the specification states it, for one domain in one state: when
    the network answers the CNAME question for the domain, the result is a
    record of kind CNAME with the canonical name as its single answer, and
    the A question for the domain is not sent. *)
Definition cname_first_as_stated (d : string) (st : State) : Prop :=
  forall ns c,
    _resolver st = Some ns ->
    (forall h, answer_cname net h (question_CNAME ns d) = Some c) ->
    (exists r, fst (query_a_cname net md5_hexdigest psl d st) = Return (Some r) /\
               type r = QUERY_TYPE_CNAME /\ answer r = [cname c]) /\
    ~ In (question_A ns d) (trace (snd (query_a_cname net md5_hexdigest psl d st))).

End Vocabulary.

(** ** Example states and networks *)

(** An example state: the nameservers of "example.com" are known, and
    the zone answers unknown names with 198.51.100.9, TTL 300. *)
Definition example_nameservers : gset string := {[ "203.0.113.1"; "203.0.113.2" ]}.

Definition wildcard_baseline : DNSRecord :=
  mkRecord "example.com" QUERY_TYPE_A 300 ["198.51.100.9"].

Definition wildcard_state : State :=
  {| _resolver := Some example_nameservers;
     _black_list := {[ "example.com" := wildcard_baseline ]};
     _psl := Some psl_example;
     trace := [];
     log := [] |}.

(** The same with a zone that has no wildcard. *)
Definition plain_state : State :=
  {| _resolver := Some example_nameservers;
     _black_list := {[ "example.com" := mkRecord "example.com" QUERY_TYPE_A (-1) [] ]};
     _psl := Some psl_example;
     trace := [];
     log := [] |}.

(** A network whose answers depend on the name and kind asked only. *)
Definition static_network (hosts : string -> QueryType -> option (list HostResult))
    (cnames : string -> option CnameResult) : Network :=
  {| answer_hosts := fun _ q => hosts (q_name q) (q_type q);
     answer_cname := fun _ q => cnames (q_name q) |}.

(** The process after a bootstrap that found the two nameservers, before
    any candidate was looked up. *)
Definition bootstrapped_state : State :=
  {| _resolver := Some example_nameservers;
     _black_list := ∅;
     _psl := None;
     trace := [];
     log := [] |}.

(** A network in which "www.example.com" has both an address and a
    canonical name; nothing else resolves. *)
Definition both_kinds_network : Network :=
  static_network
    (fun name t =>
       match t with
       | QUERY_TYPE_A =>
           if String.eqb name "www.example.com" then Some [mkHost "203.0.113.80" 60]
           else None
       | _ => None
       end)
    (fun name =>
       if String.eqb name "www.example.com" then Some (mkCname "web.example.net" 60)
       else None).

(** A network in which "shop.example.com" has a canonical name and no
    address of its own. *)
Definition cname_only_network : Network :=
  static_network
    (fun _ _ => None)
    (fun name =>
       if String.eqb name "shop.example.com" then Some (mkCname "shops.example.net" 3600)
       else None).

(** A network in which the synthetic name under "example.com" has the
    same address twice in its A answer, and no canonical name. *)
Definition duplicate_answer_network : Network :=
  static_network
    (fun name t =>
       match t with
       | QUERY_TYPE_A =>
           if String.eqb name (synthetic_name md5_example "example.com")
           then Some [mkHost "198.51.100.9" 300; mkHost "198.51.100.9" 300]
           else None
       | _ => None
       end)
    (fun _ => None).

(** "example.com" has the nameservers ns1 and ns2; ns1 resolves, the A
    question for ns2 fails. *)
Definition one_ns_host_down : Network :=
  static_network
    (fun name t =>
       match t with
       | QUERY_TYPE_NS =>
           if String.eqb name "example.com"
           then Some [mkHost "ns1.example.com" 3600; mkHost "ns2.example.com" 3600]
           else None
       | QUERY_TYPE_A =>
           if String.eqb name "ns1.example.com" then Some [mkHost "203.0.113.1" 3600]
           else None
       | _ => None
       end)
    (fun _ => None).

(** A network in which "example.com" has no NS record: the NS question
    is answered with an empty list. *)
Definition no_ns_record_network : Network :=
  static_network
    (fun name t =>
       match t with
       | QUERY_TYPE_NS => Some []
       | _ => None
       end)
    (fun _ => None).

(** A network in which nothing resolves. *)
Definition unreachable_network : Network :=
  static_network (fun _ _ => None) (fun _ => None).

(** ** Vocabulary for the bootstrap, the cache and the reports *)

Section MoreVocabulary.

Variable net : Network.
Variable psl : string -> string.

(** The answers of the network to the A questions for the nameserver
    hosts, asked in order after the questions [h]: [None] when one of them
    fails. *)
Fixpoint batch_answers (h : list Query) (ns_records : list HostResult)
    : option (list (list HostResult)) :=
  match ns_records with
  | [] => Some []
  | n :: rest =>
      match answer_hosts net h (question_host n),
            batch_answers (h ++ [question_host n]) rest with
      | Some a, Some l => Some (a :: l)
      | _, _ => None
      end
  end.

(** A question sent through a resolver bound to the nameservers [ns]. *)
Definition via_ns (ns : gset string) (q : Query) : Prop :=
  q_via q = SharedResolver ns \/ q_via q = FreshResolver ns.

(** The records that [query_loop] reported with [log.info]. *)
Fixpoint reported (l : list LogEntry) : list DNSRecord :=
  match l with
  | [] => []
  | LogInfo r :: l' => r :: reported l'
  | _ :: l' => reported l'
  end.

(** The shape of a record that the lookup loop can build. *)
Definition candidate_shape (r : DNSRecord) : Prop :=
  (type r = QUERY_TYPE_A /\ answer r <> []) \/
  (type r = QUERY_TYPE_CNAME /\ (exists c, answer r = [c]) /\ ttl r <> 0).

(** What the operations of the pipeline keep of a state: the resolver and
    the public-suffix function stay, at most [n] questions are added, all
    of them through resolvers bound to the nameservers of [_resolver], and
    the cache only gains records of kind A stored under their own
    domain. *)
Record pipeline_frame (n : nat) (st st' : State) : Prop := mkFrame {
  frame_resolver : _resolver st' = _resolver st;
  frame_psl : psl_in psl st' = psl_in psl st;
  frame_trace :
    exists sq,
      trace st' = (trace st ++ sq)%list /\
      (length sq <= n)%nat /\
      (_resolver st = None -> sq = []) /\
      (forall ns, _resolver st = Some ns -> Forall (via_ns ns) sq);
  frame_keep :
    forall p r, _black_list st !! p = Some r -> _black_list st' !! p = Some r;
  frame_new :
    forall p r,
      _black_list st' !! p = Some r ->
      _black_list st !! p = Some r \/
      (_black_list st !! p = None /\ domain r = p /\ type r = QUERY_TYPE_A)
}.

(** Every cached record is of kind A and is stored under its domain. *)
Definition well_keyed (st : State) : Prop :=
  forall p r, _black_list st !! p = Some r -> domain r = p /\ type r = QUERY_TYPE_A.

End MoreVocabulary.

(** The zone "example.com": two nameservers, a wildcard that answers the
    unknown names (the synthetic name and "random123") with 198.51.100.9,
    TTL 300, and a host "mail" of its own. *)
Definition wildcard_zone_network : Network :=
  static_network
    (fun name t =>
       match t with
       | QUERY_TYPE_NS =>
           if String.eqb name "example.com"
           then Some [mkHost "ns1.example.com" 3600; mkHost "ns2.example.com" 3600]
           else None
       | QUERY_TYPE_A =>
           if String.eqb name "ns1.example.com" then Some [mkHost "203.0.113.1" 3600]
           else if String.eqb name "ns2.example.com" then Some [mkHost "203.0.113.2" 3600]
           else if String.eqb name "mail.example.com" then Some [mkHost "198.51.100.50" 3600]
           else if String.eqb name "random123.example.com" then Some [mkHost "198.51.100.9" 300]
           else if String.eqb name (synthetic_name md5_example "example.com")
           then Some [mkHost "198.51.100.9" 300]
           else None
       | _ => None
       end)
    (fun _ => None).

(** A name with a letter outside ASCII (code point 252), and a network in
    which it has an address. *)
Definition idn_domain : string := "www.b" ++ String (ascii_of_nat 252) "cher.de".

Definition idn_network : Network :=
  static_network
    (fun name t =>
       match t with
       | QUERY_TYPE_A =>
           if String.eqb name idn_domain then Some [mkHost "192.0.2.7" 600] else None
       | _ => None
       end)
    (fun _ => None).
(** ** Strings: [index], slices and labels *)

Lemma has_dot_String (c : ascii) (s : string) :
  has_dot (String c s) = Ascii.eqb c "." || has_dot s.
Proof. reflexivity. Qed.

Lemma str_index_None_has_dot (s : string) :
  str_index "." s = None <-> has_dot s = false.
Proof.
  induction s as [|c s IH]; [simpl; tauto|].
  rewrite has_dot_String. simpl.
  destruct (Ascii.eqb c "."); simpl.
  - split; discriminate.
  - destruct (str_index "." s); [|tauto].
    split; [discriminate|]. intros H. apply IH in H. discriminate.
Qed.

Lemma split_dot_nonempty (s : string) : split_dot s <> [].
Proof.
  induction s as [|c s IH]; simpl; [discriminate|].
  destruct (Ascii.eqb c "."); [discriminate|].
  destruct (split_dot s); discriminate.
Qed.

Lemma join_split_dot (s : string) : join_dot (split_dot s) = s.
Proof.
  induction s as [|c s IH]; [reflexivity|].
  simpl split_dot. destruct (Ascii.eqb c ".") eqn:Hc.
  - apply Ascii.eqb_eq in Hc. subst c.
    pose proof (split_dot_nonempty s) as Hne.
    simpl. destruct (split_dot s) as [|l ls]; [contradiction|].
    now rewrite IH.
  - destruct (split_dot s) as [|l ls] eqn:Hs.
    + now destruct (split_dot_nonempty s).
    + rewrite <- IH. destruct ls; reflexivity.
Qed.

(** On a name with a ".", the slice after the first "." is the name
    without its leftmost label. *)
Lemma slice_after_first_dot (s : string) :
  has_dot s = true ->
  exists i, str_index "." s = Some i /\ str_from (i + 1) s = strip_leftmost_label s.
Proof.
  unfold strip_leftmost_label.
  induction s as [|c s IH]; [discriminate|].
  rewrite has_dot_String. simpl.
  destruct (Ascii.eqb c ".") eqn:Hc; simpl.
  - intros _. exists O. split; [reflexivity|]. simpl. now rewrite join_split_dot.
  - intros H. destruct (IH H) as (i & Hi & Hs). exists (S i).
    rewrite Hi. split; [reflexivity|]. simpl. rewrite Hs.
    destruct (split_dot s) as [|l ls] eqn:E; [now destruct (split_dot_nonempty s)|].
    reflexivity.
Qed.

(** ** [_is_root_domain] and [_parent_domain] as functions of the state *)

Lemma is_root_domain_eq psl d st :
  _is_root_domain psl d st =
  (Return (String.eqb d (psl_in psl st d)), set_psl (Some (psl_in psl st)) st).
Proof.
  unfold _is_root_domain, psl_in, bind, gets, modify, ret.
  destruct st as [r b [p|] t l]; reflexivity.
Qed.

Lemma parent_domain_eq psl d st :
  _parent_domain psl d st =
  (if String.eqb d (psl_in psl st d) then Return d
   else match str_index "." d with
        | Some i => Return (str_from (i + 1) d)
        | None => Raise ValueError
        end,
   set_psl (Some (psl_in psl st)) st).
Proof.
  unfold _parent_domain, bind. rewrite is_root_domain_eq.
  destruct (String.eqb d (psl_in psl st d)); [reflexivity|].
  destruct (str_index "." d); reflexivity.
Qed.

(** ** C8: the parent of a domain *)

(** C8, counterexample: "LOCALHOST" is not a root domain (its public
    suffix is "localhost") and has no "."; [_parent_domain] raises
    [ValueError] on it and returns no remainder. *)
Lemma parent_domain_no_dot_counterexample :
  ~ parent_domain_as_stated psl_example "LOCALHOST" initial_state.
Proof.
  intros [_ H]. specialize (H eq_refl). vm_compute in H. discriminate H.
Qed.

(** C8, amended: on a domain for which [_is_root_domain] holds,
    [_parent_domain] returns the domain unchanged; on every other domain
    that contains a ".", it strips the leftmost label and returns the
    remainder; for "a.b.example.com" with registrable root "example.com"
    it returns "b.example.com". *)
Theorem parent_domain_root_or_remainder psl d st :
  (fst (_is_root_domain psl d st) = Return true ->
   fst (_parent_domain psl d st) = Return d) /\
  (fst (_is_root_domain psl d st) = Return false ->
   has_dot d = true ->
   fst (_parent_domain psl d st) = Return (strip_leftmost_label d)) /\
  (psl_in psl st "a.b.example.com" = "example.com" ->
   fst (_parent_domain psl "a.b.example.com" st) = Return "b.example.com").
Proof.
  rewrite is_root_domain_eq. rewrite !parent_domain_eq. simpl.
  split; [|split].
  - intros H. injection H as ->. reflexivity.
  - intros H Hdot. injection H as ->.
    destruct (slice_after_first_dot d Hdot) as (i & -> & ->). reflexivity.
  - intros ->. reflexivity.
Qed.

Lemma parent_domain_root_or_remainder_witness :
  fst (_parent_domain psl_example "example.com" initial_state) = Return "example.com" /\
  fst (_parent_domain psl_example "www.example.com" initial_state)
    = Return (strip_leftmost_label "www.example.com") /\
  fst (_parent_domain psl_example "a.b.example.com" initial_state) = Return "b.example.com".
Proof.
  split; [|split].
  - apply (proj1 (parent_domain_root_or_remainder psl_example "example.com" initial_state)).
    reflexivity.
  - apply (proj1 (proj2 (parent_domain_root_or_remainder psl_example "www.example.com"
                           initial_state))); reflexivity.
  - apply (proj2 (proj2 (parent_domain_root_or_remainder psl_example "example.com"
                           initial_state))); reflexivity.
Defined.

(** ** C10: [_parent_domain] is partial *)

(** C10: on a domain for which [_is_root_domain] is false and which
    contains no ".", [_parent_domain] raises [ValueError] ([str.index]
    finds nothing); on every other domain it returns a string. *)
Theorem parent_domain_partial psl d st :
  (fst (_is_root_domain psl d st) = Return false ->
   has_dot d = false ->
   fst (_parent_domain psl d st) = Raise ValueError) /\
  (~ (fst (_is_root_domain psl d st) = Return false /\ has_dot d = false) ->
   exists s, fst (_parent_domain psl d st) = Return s).
Proof.
  rewrite is_root_domain_eq, parent_domain_eq. simpl. split.
  - intros H Hdot. injection H as ->.
    apply str_index_None_has_dot in Hdot. now rewrite Hdot.
  - intros H. destruct (String.eqb d (psl_in psl st d)); [eauto|].
    destruct (str_index "." d) eqn:E; [eauto|].
    apply str_index_None_has_dot in E. destruct H. now split.
Qed.

Lemma parent_domain_partial_witness :
  fst (_parent_domain psl_example "LOCALHOST" initial_state) = Raise ValueError /\
  exists s, fst (_parent_domain psl_example "www.example.com" initial_state) = Return s.
Proof.
  split.
  - apply (proj1 (parent_domain_partial psl_example "LOCALHOST" initial_state));
      reflexivity.
  - apply (proj2 (parent_domain_partial psl_example "www.example.com" initial_state)).
    intros [_ H]. discriminate H.
Defined.

(** ** The wildcard decision [_is_pan_dns] *)

Lemma str_in_elem_of (x : string) (l : list string) :
  str_in x l = true <-> x ∈ l.
Proof.
  unfold str_in. rewrite existsb_exists, list_elem_of_In. split.
  - intros (y & Hy & E). apply String.eqb_eq in E. now subst y.
  - intros H. exists x. split; [exact H | apply String.eqb_refl].
Qed.

Lemma all_in_subset (record pan : DNSRecord) :
  all_in record pan = true <->
  (forall a, a ∈ answer record -> a ∈ answer pan).
Proof.
  unfold all_in. rewrite forallb_forall. split.
  - intros H a Ha. apply str_in_elem_of, H. now apply list_elem_of_In.
  - intros H a Ha. apply str_in_elem_of, H. now apply list_elem_of_In.
Qed.

(** [_is_pan_dns] when the parent of the record's domain is computed and
    its baseline is in the cache. *)
Lemma is_pan_dns_cached psl record st parent pan :
  fst (_parent_domain psl (domain record) st) = Return parent ->
  _black_list st !! parent = Some pan ->
  fst (_is_pan_dns psl record st) =
  Return (match answer pan with
          | [] => false
          | _ :: _ =>
              if QueryType_eqb (type record) QUERY_TYPE_CNAME && all_in record pan
              then true
              else all_in record pan && (ttl record =? ttl pan)
          end).
Proof.
  intros Hp Hb. unfold _is_pan_dns, bind, gets.
  destruct (_parent_domain psl (domain record) st) as [[p|e] st1] eqn:E;
    simpl in Hp; [|discriminate].
  injection Hp as ->. rewrite Hb.
  destruct (answer pan); [reflexivity|].
  destruct (QueryType_eqb (type record) QUERY_TYPE_CNAME && all_in record pan);
    [reflexivity|].
  destruct (all_in record pan && (ttl record =? ttl pan)); reflexivity.
Qed.

(** C4: for a record of kind A whose answers are a non-empty subset of the
    non-empty baseline answers of its parent domain, [_is_pan_dns] returns
    false when the record's ttl differs from the baseline's, and true when
    the two are equal. *)
Theorem is_pan_dns_A_needs_equal_ttl psl record st parent pan :
  fst (_parent_domain psl (domain record) st) = Return parent ->
  _black_list st !! parent = Some pan ->
  type record = QUERY_TYPE_A ->
  answer record <> [] ->
  answer pan <> [] ->
  (forall a, a ∈ answer record -> a ∈ answer pan) ->
  (ttl record <> ttl pan -> fst (_is_pan_dns psl record st) = Return false) /\
  (ttl record = ttl pan -> fst (_is_pan_dns psl record st) = Return true).
Proof.
  intros Hp Hb Ht _ Hne Hsub.
  rewrite (is_pan_dns_cached psl record st parent pan Hp Hb).
  apply all_in_subset in Hsub. rewrite Ht, Hsub. simpl.
  destruct (answer pan); [contradiction|].
  split; intros H.
  - apply Z.eqb_neq in H. now rewrite H.
  - apply Z.eqb_eq in H. now rewrite H.
Qed.

Lemma is_pan_dns_A_needs_equal_ttl_witness :
  fst (_is_pan_dns psl_example
         (mkRecord "mail.example.com" QUERY_TYPE_A 3600 ["198.51.100.9"])
         wildcard_state) = Return false /\
  fst (_is_pan_dns psl_example
         (mkRecord "random123.example.com" QUERY_TYPE_A 300 ["198.51.100.9"])
         wildcard_state) = Return true.
Proof.
  split.
  - apply (is_pan_dns_A_needs_equal_ttl psl_example
             (mkRecord "mail.example.com" QUERY_TYPE_A 3600 ["198.51.100.9"])
             wildcard_state "example.com" wildcard_baseline);
      try reflexivity; try discriminate.
    intros a Ha. exact Ha.
  - apply (is_pan_dns_A_needs_equal_ttl psl_example
             (mkRecord "random123.example.com" QUERY_TYPE_A 300 ["198.51.100.9"])
             wildcard_state "example.com" wildcard_baseline);
      try reflexivity; try discriminate.
    intros a Ha. exact Ha.
Defined.

(** C5: for a record of kind CNAME whose single answer is among the
    baseline answers of its parent domain, [_is_pan_dns] returns true,
    whatever the ttl of the record and the ttl of the baseline. *)
Theorem is_pan_dns_CNAME_ignores_ttl psl record st parent pan c :
  fst (_parent_domain psl (domain record) st) = Return parent ->
  _black_list st !! parent = Some pan ->
  type record = QUERY_TYPE_CNAME ->
  answer record = [c] ->
  c ∈ answer pan ->
  fst (_is_pan_dns psl record st) = Return true.
Proof.
  intros Hp Hb Ht Ha Hc.
  rewrite (is_pan_dns_cached psl record st parent pan Hp Hb).
  assert (Hall : all_in record pan = true).
  { apply all_in_subset. intros a. rewrite Ha.
    intros H. apply list_elem_of_singleton in H. now subst a. }
  rewrite Ht, Hall. simpl.
  destruct (answer pan) as [|x l]; [|reflexivity].
  now apply not_elem_of_nil in Hc.
Qed.

Lemma is_pan_dns_CNAME_ignores_ttl_witness :
  fst (_is_pan_dns psl_example
         (mkRecord "shop.example.com" QUERY_TYPE_CNAME 86400 ["198.51.100.9"])
         wildcard_state) = Return true.
Proof.
  apply (is_pan_dns_CNAME_ignores_ttl psl_example
           (mkRecord "shop.example.com" QUERY_TYPE_CNAME 86400 ["198.51.100.9"])
           wildcard_state "example.com" wildcard_baseline "198.51.100.9");
    try reflexivity.
  constructor.
Defined.

(** C6: when the cached baseline of the parent domain has an empty answer
    sequence, [_is_pan_dns] returns false on every record. *)
Theorem is_pan_dns_empty_baseline psl record st parent pan :
  fst (_parent_domain psl (domain record) st) = Return parent ->
  _black_list st !! parent = Some pan ->
  answer pan = [] ->
  fst (_is_pan_dns psl record st) = Return false.
Proof.
  intros Hp Hb He.
  rewrite (is_pan_dns_cached psl record st parent pan Hp Hb).
  now rewrite He.
Qed.

Lemma is_pan_dns_empty_baseline_witness :
  fst (_is_pan_dns psl_example
         (mkRecord "www.example.com" QUERY_TYPE_A 300 ["198.51.100.9"])
         plain_state) = Return false.
Proof.
  apply (is_pan_dns_empty_baseline psl_example
           (mkRecord "www.example.com" QUERY_TYPE_A 300 ["198.51.100.9"])
           plain_state "example.com"
           (mkRecord "example.com" QUERY_TYPE_A (-1) []));
    reflexivity.
Defined.

(** ** What one call does to the state *)

Section Effects.

Variable net : Network.
Variable md5_hexdigest : string -> string.
Variable psl : string -> string.

Lemma lookup_loop_unbound d st :
  _resolver st = None ->
  lookup_loop net d [QUERY_TYPE_A; QUERY_TYPE_CNAME] None st = (Return None, st).
Proof.
  intros H. unfold lookup_loop, try_except, _resolver_query, bind, gets, raise, ret.
  rewrite H. simpl. rewrite H. reflexivity.
Qed.

Lemma lookup_loop_bound d st ns :
  _resolver st = Some ns ->
  lookup_loop net d [QUERY_TYPE_A; QUERY_TYPE_CNAME] None st =
  match answer_hosts net (trace st) (question_A ns d) with
  | Some (first :: rest) =>
      (Return (Some (record_A d first rest)), add_trace (question_A ns d) st)
  | _ =>
      (match answer_cname net (trace st ++ [question_A ns d]) (question_CNAME ns d) with
       | Some c => Return (Some (record_CNAME d c))
       | None => Return None
       end,
       add_trace (question_CNAME ns d) (add_trace (question_A ns d) st))
  end.
Proof.
  intros H.
  unfold lookup_loop, try_except, _resolver_query, resolver_query, query_hosts,
    query_cname, bind, gets, raise, ret, question_A, question_CNAME.
  rewrite H.
  destruct (answer_hosts net (trace st) _) as [[|first rest]|]; simpl; rewrite ?H;
    try reflexivity;
    destruct (answer_cname net _ _); reflexivity.
Qed.

Lemma query_pan_dns_unbound p st :
  _resolver st = None ->
  _query_pan_dns net md5_hexdigest p st = (Raise AttributeError, st).
Proof.
  intros H. unfold _query_pan_dns, bind, gets, raise. now rewrite H.
Qed.

Lemma query_pan_dns_not_ascii p st ns :
  _resolver st = Some ns ->
  is_ascii p = false ->
  _query_pan_dns net md5_hexdigest p st = (Raise UnicodeEncodeError, st).
Proof.
  intros H Ha. unfold _query_pan_dns, bind, gets, raise. now rewrite H, Ha.
Qed.

Lemma query_pan_dns_bound p st ns :
  _resolver st = Some ns ->
  is_ascii p = true ->
  exists st',
    _query_pan_dns net md5_hexdigest p st = (Return tt, st') /\
    _resolver st' = Some ns /\
    _psl st' = _psl st /\
    trace st' = (trace st ++ [baseline_A md5_hexdigest ns p; baseline_CNAME md5_hexdigest ns p])%list /\
    _black_list st' =
      <[p := baseline_record p
               (answer_hosts net (trace st) (baseline_A md5_hexdigest ns p))
               (answer_cname net (trace st ++ [baseline_A md5_hexdigest ns p]) (baseline_CNAME md5_hexdigest ns p))]>
        (_black_list st).
Proof.
  intros H Ha.
  unfold _query_pan_dns, for_each, pan_dns_iteration, try_except, resolver_query,
    query_hosts, query_cname, bind, gets, modify, raise, ret, baseline_record,
    baseline_A, baseline_CNAME.
  rewrite H, Ha. simpl.
  destruct (answer_hosts net (trace st) _) as [a|]; simpl;
    destruct (answer_cname net _ _) as [c|]; simpl;
    try match goal with
        | |- context [match answer ?r with _ => _ end] => destruct (answer r)
        end;
    eexists; (split; [reflexivity|]); simpl;
    rewrite <- ?app_assoc; simpl; auto.
Qed.

(** [_query_ns], by the answer to the NS question. *)
Lemma query_ns_eq root st :
  _query_ns net root st =
  match answer_hosts net (trace st) (question_NS root) with
  | Some (n :: names) =>
      match gather (ns_host_lookups net (n :: names)) (add_trace (question_NS root) st) with
      | (Return a_records, st2) =>
          (Return tt,
           set_resolver (Some (collect_ns_servers a_records))
             (add_log (LogDebugNs root (collect_ns_servers a_records)) st2))
      | (Raise e, st2) => (Raise e, st2)
      end
  | Some [] =>
      (Raise (SystemExit 1),
       add_log (LogError root [] None) (add_trace (question_NS root) st))
  | None =>
      (Raise (SystemExit 1),
       add_log (LogError root [] (Some DNSError)) (add_trace (question_NS root) st))
  end.
Proof.
  unfold _query_ns, bind, try_except_Exception. unfold query_hosts at 1.
  fold (question_NS root).
  destruct (answer_hosts net (trace st) (question_NS root)) as [[|n names]|];
    reflexivity.
Qed.

End Effects.

(** ** The query pipeline, step by step *)

Section Pipeline.

Variable net : Network.
Variable md5_hexdigest : string -> string.
Variable psl : string -> string.

Lemma psl_in_set_psl st :
  psl_in psl (set_psl (Some (psl_in psl st)) st) = psl_in psl st.
Proof. reflexivity. Qed.

(** [_is_pan_dns] reads [_black_list] and loads [_psl]; it sends nothing. *)
Lemma is_pan_dns_state r st :
  snd (_is_pan_dns psl r st) = set_psl (Some (psl_in psl st)) st.
Proof.
  unfold _is_pan_dns, bind, gets. rewrite parent_domain_eq.
  destruct (String.eqb _ _); simpl.
  - destruct (_black_list st !! domain r) as [pan|]; [|reflexivity].
    destruct (answer pan); [reflexivity|].
    destruct (_ && _); [reflexivity|]. destruct (_ && _); reflexivity.
  - destruct (str_index "." (domain r)); [|reflexivity].
    destruct (_black_list st !! _) as [pan|]; [|reflexivity].
    destruct (answer pan); [reflexivity|].
    destruct (_ && _); [reflexivity|]. destruct (_ && _); reflexivity.
Qed.

(** Its verdict depends on the cache and on the public-suffix function
    only. *)
Lemma is_pan_dns_same r st st' :
  _black_list st' = _black_list st ->
  psl_in psl st' = psl_in psl st ->
  fst (_is_pan_dns psl r st') = fst (_is_pan_dns psl r st).
Proof.
  intros Hb Hp. unfold _is_pan_dns, bind, gets. rewrite !parent_domain_eq, Hb, Hp.
  destruct (String.eqb _ _); simpl.
  - destruct (_black_list st !! domain r) as [pan|]; [|reflexivity].
    destruct (answer pan); [reflexivity|].
    destruct (_ && _); [reflexivity|]. destruct (_ && _); reflexivity.
  - destruct (str_index "." (domain r)); [|reflexivity].
    destruct (_black_list st !! _) as [pan|]; [|reflexivity].
    destruct (answer pan); [reflexivity|].
    destruct (_ && _); [reflexivity|]. destruct (_ && _); reflexivity.
Qed.

Lemma query_a_cname_eq d st p :
  fst (_parent_domain psl d st) = Return p ->
  query_a_cname net md5_hexdigest psl d st =
  match lookup_loop net d [QUERY_TYPE_A; QUERY_TYPE_CNAME] None (before_lookup net md5_hexdigest psl d st) with
  | (Return (Some r), st3) =>
      (report r (fst (_is_pan_dns psl r st3)), set_psl (Some (psl_in psl st3)) st3)
  | (Return None, st3) => (Return None, st3)
  | (Raise e, st3) => (Raise e, st3)
  end.
Proof.
  intros Hp. unfold query_a_cname, before_lookup, bind.
  destruct (_parent_domain psl d st) as [[p'|e] st1]; simpl in Hp; [|discriminate].
  injection Hp as ->.
  assert (He : exists st2, ensure_baseline net md5_hexdigest p st1 = (Return tt, st2)).
  { unfold ensure_baseline, bind, gets, run_thread, ret.
    destruct (_black_list st1 !! p); eauto. }
  destruct He as [st2 He]. rewrite He. cbn [snd].
  destruct (lookup_loop net d [QUERY_TYPE_A; QUERY_TYPE_CNAME] None st2)
    as [[[r|]|e] st3]; try reflexivity.
  rewrite <- (is_pan_dns_state r st3).
  destruct (_is_pan_dns psl r st3) as [[[|]|e] st4]; reflexivity.
Qed.

Lemma query_a_cname_no_parent d st e :
  fst (_parent_domain psl d st) = Raise e ->
  query_a_cname net md5_hexdigest psl d st = (Raise e, set_psl (Some (psl_in psl st)) st).
Proof.
  intros Hp. unfold query_a_cname, bind. rewrite parent_domain_eq in *.
  simpl in Hp. now rewrite Hp.
Qed.

(** [ensure_baseline] on a cached parent does nothing. *)
Lemma ensure_baseline_cached p st :
  is_Some (_black_list st !! p) ->
  ensure_baseline net md5_hexdigest p st = (Return tt, st).
Proof.
  intros [r Hr]. unfold ensure_baseline, bind, gets, ret. now rewrite Hr.
Qed.

(** [ensure_baseline] on a parent that is not cached: nothing happens when
    the populator cannot start, otherwise the two baseline questions are
    sent and the record is stored. *)
Lemma ensure_baseline_fresh p st :
  _black_list st !! p = None ->
  (snd (ensure_baseline net md5_hexdigest p st) = st /\
   (_resolver st = None \/ is_ascii p = false)) \/
  (exists ns r,
     _resolver st = Some ns /\ is_ascii p = true /\
     _resolver (snd (ensure_baseline net md5_hexdigest p st)) = Some ns /\
     _psl (snd (ensure_baseline net md5_hexdigest p st)) = _psl st /\
     trace (snd (ensure_baseline net md5_hexdigest p st))
       = (trace st ++ [baseline_A md5_hexdigest ns p; baseline_CNAME md5_hexdigest ns p])%list /\
     _black_list (snd (ensure_baseline net md5_hexdigest p st)) = <[p := r]> (_black_list st)).
Proof.
  intros Hn. unfold ensure_baseline, bind, gets, run_thread. rewrite Hn. simpl.
  destruct (_resolver st) as [ns|] eqn:Hr.
  - destruct (is_ascii p) eqn:Ha.
    + right. destruct (query_pan_dns_bound net md5_hexdigest p st ns Hr Ha)
        as (st' & -> & H1 & H2 & H3 & H4).
      exists ns. eexists. simpl. eauto 10.
    + left. rewrite (query_pan_dns_not_ascii net md5_hexdigest p st ns Hr Ha). auto.
  - left. rewrite (query_pan_dns_unbound net md5_hexdigest p st Hr). auto.
Qed.

End Pipeline.

(** ** C1: the order of the two lookups *)

Section LookupOrder.

Variable net : Network.
Variable md5_hexdigest : string -> string.
Variable psl : string -> string.

Lemma before_lookup_spec d st p ns :
  fst (_parent_domain psl d st) = Return p ->
  _resolver st = Some ns ->
  let st2 := before_lookup net md5_hexdigest psl d st in
  _resolver st2 = Some ns /\
  psl_in psl st2 = psl_in psl st /\
  (trace st2 = trace st \/
   trace st2 = (trace st ++ [baseline_A md5_hexdigest ns p;
                             baseline_CNAME md5_hexdigest ns p])%list) /\
  (_black_list st2 = _black_list st \/
   exists r, _black_list st !! p = None /\ _black_list st2 = <[p := r]> (_black_list st)).
Proof.
  intros Hp Hr. unfold before_lookup. rewrite parent_domain_eq in *. simpl in Hp.
  rewrite Hp. set (st1 := set_psl (Some (psl_in psl st)) st).
  assert (Hr1 : _resolver st1 = Some ns) by exact Hr.
  destruct (_black_list st1 !! p) as [r|] eqn:Hb.
  - rewrite ensure_baseline_cached by eauto. simpl. auto.
  - destruct (ensure_baseline_fresh net md5_hexdigest p st1 Hb)
      as [[-> _] | (ns' & r & Hn & _ & H1 & H2 & H3 & H4)].
    + simpl. auto.
    + rewrite Hr1 in Hn. injection Hn as <-.
      simpl. rewrite H1, H3, H4. unfold psl_in at 1. rewrite H2.
      repeat split; eauto.
Qed.

Lemma before_lookup_cache d st p ns :
  fst (_parent_domain psl d st) = Return p ->
  _resolver st = Some ns ->
  let st2 := before_lookup net md5_hexdigest psl d st in
  (is_Some (_black_list st !! p) \/ is_ascii p = true ->
   is_Some (_black_list st2 !! p)) /\
  (_black_list st !! p = None -> is_ascii p = false ->
   _black_list st2 !! p = None).
Proof.
  intros Hp Hr. unfold before_lookup. rewrite parent_domain_eq in *. simpl in Hp.
  rewrite Hp. set (st1 := set_psl (Some (psl_in psl st)) st).
  assert (Hr1 : _resolver st1 = Some ns) by exact Hr.
  change (_black_list st !! p) with (_black_list st1 !! p).
  destruct (_black_list st1 !! p) as [r|] eqn:Hb.
  - rewrite ensure_baseline_cached by eauto. cbn [snd]. rewrite Hb.
    split; [eauto | discriminate].
  - destruct (ensure_baseline_fresh net md5_hexdigest p st1 Hb)
      as [[-> [Hn | Ha]] | (ns' & r & _ & Ha & _ & _ & _ & H4)].
    + congruence.
    + rewrite Hb. split; [|auto].
      intros [[x Hx] | H]; [discriminate | congruence].
    + rewrite H4, lookup_insert_eq. split; [eauto | congruence].
Qed.

(** C1, amended: with the resolver bound and the parent of the domain
    computed, the A question for the domain is sent before its CNAME
    question, after the baseline questions only.  When the A question is
    answered with at least one record, the candidate is the record of kind
    A (ttl of the first answer, all hosts) and the CNAME question is never
    sent.  When the A question fails or is answered with no record, the
    CNAME question is sent, and an answer to it gives the candidate of
    kind CNAME whose answer is the canonical name alone; with no answer to
    either question [query_a_cname] returns [None].  For a candidate,
    [query_a_cname] returns [None] when [_is_pan_dns] holds of it and the
    candidate when it does not; [_is_pan_dns] gives such a verdict when
    the parent was cached before or is ASCII; for a parent that is not
    cached and has a character outside ASCII the baseline is missing, and
    [_is_pan_dns], and with it [query_a_cname], raises [KeyError]. *)
Theorem a_lookup_before_cname d st p ns :
  fst (_parent_domain psl d st) = Return p ->
  _resolver st = Some ns ->
  let st2 := before_lookup net md5_hexdigest psl d st in
  let out := query_a_cname net md5_hexdigest psl d st in
  let qA := question_A ns d in
  let qC := question_CNAME ns d in
  (exists bq, trace st2 = (trace st ++ bq)%list /\
              Forall (fun q => is_baseline_query q = true) bq) /\
  (forall first rest,
     answer_hosts net (trace st2) qA = Some (first :: rest) ->
     trace (snd out) = (trace st2 ++ [qA])%list /\
     fst out = report (record_A d first rest)
                      (fst (_is_pan_dns psl (record_A d first rest) st2))) /\
  (forall c,
     answer_hosts net (trace st2) qA = None \/ answer_hosts net (trace st2) qA = Some [] ->
     answer_cname net (trace st2 ++ [qA]) qC = Some c ->
     trace (snd out) = (trace st2 ++ [qA; qC])%list /\
     fst out = report (record_CNAME d c)
                      (fst (_is_pan_dns psl (record_CNAME d c) st2))) /\
  (answer_hosts net (trace st2) qA = None \/ answer_hosts net (trace st2) qA = Some [] ->
   answer_cname net (trace st2 ++ [qA]) qC = None ->
   trace (snd out) = (trace st2 ++ [qA; qC])%list /\
   fst out = Return None) /\
  (is_Some (_black_list st !! p) \/ is_ascii p = true ->
   forall r, domain r = d ->
             exists b, fst (_is_pan_dns psl r st2) = Return b /\
                       report r (fst (_is_pan_dns psl r st2))
                       = Return (if b then None else Some r)) /\
  (_black_list st !! p = None -> is_ascii p = false ->
   forall r, domain r = d ->
             fst (_is_pan_dns psl r st2) = Raise (KeyError p) /\
             report r (fst (_is_pan_dns psl r st2)) = Raise (KeyError p)).
Proof.
  intros Hp Hr st2 out qA qC.
  destruct (before_lookup_spec d st p ns Hp Hr) as (Hr2 & Hpsl & Ht & Hb).
  destruct (before_lookup_cache d st p ns Hp Hr) as (Hc1 & Hc2).
  fold st2 in Hr2, Hpsl, Ht, Hb, Hc1, Hc2.
  assert (Hp2 : forall r, domain r = d ->
                          fst (_parent_domain psl (domain r) st2) = Return p).
  { intros r ->. rewrite parent_domain_eq in *. cbn [fst] in *. now rewrite Hpsl. }
  assert (Hout : out =
    match lookup_loop net d [QUERY_TYPE_A; QUERY_TYPE_CNAME] None st2 with
    | (Return (Some r), st3) =>
        (report r (fst (_is_pan_dns psl r st3)), set_psl (Some (psl_in psl st3)) st3)
    | (Return None, st3) => (Return None, st3)
    | (Raise e, st3) => (Raise e, st3)
    end) by (apply query_a_cname_eq with (p := p); exact Hp).
  rewrite (lookup_loop_bound net d st2 ns Hr2) in Hout. fold qA qC in Hout.
  split; [|split; [|split; [|split; [|split]]]].
  - destruct Ht as [-> | ->].
    + exists []. rewrite app_nil_r. split; [reflexivity | constructor].
    + eexists. split; [reflexivity|]. repeat constructor.
  - intros first rest Ha. rewrite Ha in Hout. rewrite Hout. simpl. split; [reflexivity|].
    f_equal. apply is_pan_dns_same; reflexivity.
  - intros c Ha Hc. rewrite Hc in Hout.
    assert (E : out =
      (report (record_CNAME d c)
         (fst (_is_pan_dns psl (record_CNAME d c) (add_trace qC (add_trace qA st2)))),
       set_psl (Some (psl_in psl (add_trace qC (add_trace qA st2))))
               (add_trace qC (add_trace qA st2)))).
    { destruct Ha as [Ha | Ha]; rewrite Ha in Hout; exact Hout. }
    rewrite E. simpl. rewrite <- app_assoc. split; [reflexivity|].
    f_equal. apply is_pan_dns_same; reflexivity.
  - intros Ha Hc. rewrite Hc in Hout.
    assert (E : out = (Return None, add_trace qC (add_trace qA st2))).
    { destruct Ha as [Ha | Ha]; rewrite Ha in Hout; exact Hout. }
    rewrite E. simpl. rewrite <- app_assoc. split; reflexivity.
  - intros Hc r Hd. destruct (Hc1 Hc) as [pan Hpan].
    rewrite (is_pan_dns_cached psl r st2 p pan (Hp2 r Hd) Hpan).
    eexists. split; [reflexivity|]. cbn [report].
    match goal with |- context [if ?b then Return None else _] => destruct b end;
      reflexivity.
  - intros Hn Ha r Hd. specialize (Hc2 Hn Ha). specialize (Hp2 r Hd).
    assert (E : fst (_is_pan_dns psl r st2) = Raise (KeyError p)).
    { unfold _is_pan_dns, bind, gets.
      destruct (_parent_domain psl (domain r) st2) as [[p'|e] st3]; cbn [fst] in Hp2;
        [|discriminate].
      injection Hp2 as ->. now rewrite Hc2. }
    rewrite E. split; reflexivity.
Qed.

End LookupOrder.

(** C1, counterexample: the CNAME question for "www.example.com" would be
    answered, yet [query_a_cname] sends the A question and returns the
    record of kind A. *)
Lemma cname_first_counterexample :
  ~ cname_first_as_stated both_kinds_network md5_example psl_example
      "www.example.com" plain_state.
Proof.
  intros H.
  destruct (H example_nameservers (mkCname "web.example.net" 60) eq_refl
              (fun _ => eq_refl)) as [_ Hn].
  apply Hn. vm_compute. left. reflexivity.
Qed.

Lemma a_lookup_before_cname_witness :
  (trace (snd (query_a_cname both_kinds_network md5_example psl_example
                 "www.example.com" plain_state))
   = [question_A example_nameservers "www.example.com"] /\
   fst (query_a_cname both_kinds_network md5_example psl_example
          "www.example.com" plain_state)
   = Return (Some (mkRecord "www.example.com" QUERY_TYPE_A 60 ["203.0.113.80"]))) /\
  (trace (snd (query_a_cname cname_only_network md5_example psl_example
                 "shop.example.com" plain_state))
   = [question_A example_nameservers "shop.example.com";
      question_CNAME example_nameservers "shop.example.com"] /\
   fst (query_a_cname cname_only_network md5_example psl_example
          "shop.example.com" plain_state)
   = Return (Some (mkRecord "shop.example.com" QUERY_TYPE_CNAME 3600
                     ["shops.example.net"]))) /\
  fst (query_a_cname wildcard_zone_network md5_example psl_example
         "random123.example.com" bootstrapped_state) = Return None /\
  fst (query_a_cname idn_network md5_example psl_example idn_domain bootstrapped_state)
  = Raise (KeyError ("b" ++ String (ascii_of_nat 252) "cher.de")).
Proof.
  split; [|split; [|split]].
  - destruct (a_lookup_before_cname both_kinds_network md5_example psl_example
                "www.example.com" plain_state "example.com" example_nameservers
                eq_refl eq_refl) as (_ & HA & _).
    exact (HA (mkHost "203.0.113.80" 60) [] eq_refl).
  - destruct (a_lookup_before_cname cname_only_network md5_example psl_example
                "shop.example.com" plain_state "example.com" example_nameservers
                eq_refl eq_refl) as (_ & _ & HC & _).
    exact (HC (mkCname "shops.example.net" 3600) (or_introl eq_refl) eq_refl).
  - destruct (a_lookup_before_cname wildcard_zone_network md5_example psl_example
                "random123.example.com" bootstrapped_state "example.com"
                example_nameservers eq_refl eq_refl) as (_ & HA & _ & _ & HV & _).
    destruct (HA (mkHost "198.51.100.9" 300) [] eq_refl) as [_ Hf].
    destruct (HV (or_intror eq_refl)
                (record_A "random123.example.com" (mkHost "198.51.100.9" 300) [])
                eq_refl) as (b & Hv & Hb).
    assert (E : Return true = Return b) by exact Hv.
    injection E as <-. exact (eq_trans Hf Hb).
  - destruct (a_lookup_before_cname idn_network md5_example psl_example
                idn_domain bootstrapped_state ("b" ++ String (ascii_of_nat 252) "cher.de")
                example_nameservers eq_refl eq_refl) as (_ & HA & _ & _ & _ & HK).
    destruct (HA (mkHost "192.0.2.7" 600) [] eq_refl) as [_ Hf].
    destruct (HK eq_refl eq_refl (record_A idn_domain (mkHost "192.0.2.7" 600) [])
                eq_refl) as [_ Hr].
    exact (eq_trans Hf Hr).
Defined.

(** ** C7: the baseline of a parent is populated at most once *)

Section AtMostOnce.

Variable net : Network.
Variable md5_hexdigest : string -> string.
Variable psl : string -> string.

Lemma quiet_step_refl st : quiet_step st st.
Proof. exists []. rewrite app_nil_r. repeat split. constructor. Qed.

Lemma quiet_step_trans st1 st2 st3 :
  quiet_step st1 st2 -> quiet_step st2 st3 -> quiet_step st1 st3.
Proof.
  intros (s1 & T1 & F1 & B1) (s2 & T2 & F2 & B2).
  exists (s1 ++ s2)%list. rewrite T2, T1, B2, B1, app_assoc.
  repeat split. now apply Forall_app.
Qed.

Lemma populate_then_quiet st1 st2 st3 :
  populate_step md5_hexdigest st1 st2 -> quiet_step st2 st3 -> populate_step md5_hexdigest st1 st3.
Proof.
  intros (p & ns & r & s1 & N & T1 & F1 & B1) (s2 & T2 & F2 & B2).
  exists p, ns, r, (s1 ++ s2)%list. rewrite T2, T1, B2, B1.
  repeat split; [exact N | | now apply Forall_app].
  now rewrite <- !app_assoc.
Qed.

Lemma quiet_step_same st st' :
  trace st' = trace st -> _black_list st' = _black_list st -> quiet_step st st'.
Proof. intros T B. exists []. rewrite app_nil_r. repeat split; auto. Qed.

(** The lookup loop is a quiet step. *)
Lemma lookup_loop_quiet d st :
  quiet_step st (snd (lookup_loop net d [QUERY_TYPE_A; QUERY_TYPE_CNAME] None st)).
Proof.
  destruct (_resolver st) as [ns|] eqn:Hr.
  - rewrite (lookup_loop_bound net d st ns Hr).
    destruct (answer_hosts net (trace st) _) as [[|first rest]|]; simpl.
    + exists [question_A ns d; question_CNAME ns d]. simpl. rewrite <- app_assoc.
      repeat split. repeat constructor.
    + exists [question_A ns d]. repeat split. repeat constructor.
    + exists [question_A ns d; question_CNAME ns d]. simpl. rewrite <- app_assoc.
      repeat split. repeat constructor.
  - rewrite (lookup_loop_unbound net d st Hr). apply quiet_step_refl.
Qed.

(** One call of [query_a_cname] is a quiet step or a populating step;
    it is quiet when the parent of the domain is cached. *)
Lemma query_a_cname_step d st :
  let st' := snd (query_a_cname net md5_hexdigest psl d st) in
  quiet_step st st' \/ populate_step md5_hexdigest st st'.
Proof.
  intros st'. subst st'.
  destruct (fst (_parent_domain psl d st)) as [p|e] eqn:Hp.
  - rewrite (query_a_cname_eq net md5_hexdigest psl d st p Hp).
    set (st2 := before_lookup net md5_hexdigest psl d st).
    assert (Hq : quiet_step st2
                   (snd (match lookup_loop net d [QUERY_TYPE_A; QUERY_TYPE_CNAME] None st2 with
                         | (Return (Some r), st3) =>
                             (report r (fst (_is_pan_dns psl r st3)),
                              set_psl (Some (psl_in psl st3)) st3)
                         | (Return None, st3) => (Return None, st3)
                         | (Raise e, st3) => (Raise e, st3)
                         end))).
    { pose proof (lookup_loop_quiet d st2) as H.
      destruct (lookup_loop net d [QUERY_TYPE_A; QUERY_TYPE_CNAME] None st2)
        as [[[r|]|e] st3]; exact H. }
    assert (H2 : quiet_step st st2 \/ populate_step md5_hexdigest st st2).
    { unfold st2, before_lookup. rewrite parent_domain_eq in *. simpl in Hp. rewrite Hp.
      set (st1 := set_psl (Some (psl_in psl st)) st).
      destruct (_black_list st1 !! p) as [r|] eqn:Hb.
      - rewrite ensure_baseline_cached by eauto. left. now apply quiet_step_same.
      - destruct (ensure_baseline_fresh net md5_hexdigest p st1 Hb)
          as [[-> _] | (ns & r & _ & _ & _ & _ & H3 & H4)].
        + left. now apply quiet_step_same.
        + right. exists p, ns, r, []. rewrite H3, H4. repeat split; [exact Hb | constructor]. }
    destruct H2 as [H2 | H2].
    + left. eapply quiet_step_trans; eassumption.
    + right. eapply populate_then_quiet; eassumption.
  - rewrite (query_a_cname_no_parent net md5_hexdigest psl d st e Hp).
    left. now apply quiet_step_same.
Qed.

Lemma query_a_cname_cached_quiet d st p :
  fst (_parent_domain psl d st) = Return p ->
  is_Some (_black_list st !! p) ->
  quiet_step st (snd (query_a_cname net md5_hexdigest psl d st)).
Proof.
  intros Hp Hc.
  rewrite (query_a_cname_eq net md5_hexdigest psl d st p Hp).
  assert (E : before_lookup net md5_hexdigest psl d st = set_psl (Some (psl_in psl st)) st).
  { unfold before_lookup. rewrite parent_domain_eq in *. simpl in Hp. rewrite Hp.
    now rewrite ensure_baseline_cached. }
  rewrite E. set (st1 := set_psl (Some (psl_in psl st)) st).
  apply quiet_step_trans with (st2 := st1); [now apply quiet_step_same|].
  pose proof (lookup_loop_quiet d st1) as H.
  destruct (lookup_loop net d [QUERY_TYPE_A; QUERY_TYPE_CNAME] None st1)
    as [[[r|]|e] st3]; exact H.
Qed.

Lemma baseline_queries_quiet st st' :
  quiet_step st st' -> baseline_queries (trace st') = baseline_queries (trace st).
Proof.
  intros (sq & -> & F & _). unfold baseline_queries. rewrite List.filter_app.
  assert (E : List.filter is_baseline_query sq = []).
  { induction F as [|q sq Hq F IH]; [reflexivity|]. simpl. now rewrite Hq. }
  rewrite E. apply app_nil_r.
Qed.

(** *** The count of baseline questions along a run *)

Lemma baseline_count_app p ty t1 t2 :
  baseline_count md5_hexdigest p ty (t1 ++ t2) = (baseline_count md5_hexdigest p ty t1 + baseline_count md5_hexdigest p ty t2)%nat.
Proof. unfold baseline_count. now rewrite List.filter_app, length_app. Qed.

Lemma baseline_count_quiet p ty sq :
  Forall (fun q => is_baseline_query q = false) sq -> baseline_count md5_hexdigest p ty sq = 0%nat.
Proof.
  unfold baseline_count. induction 1 as [|q sq Hq F IH]; [reflexivity|].
  simpl. unfold asks_baseline at 1. now rewrite Hq.
Qed.

Lemma str_from_app (a b : string) :
  str_from (String.length a + 1) (a ++ "." ++ b) = b.
Proof. induction a as [|c a IH]; [reflexivity | exact IH]. Qed.

Hypothesis md5_hexdigest_length :
  forall s, String.length (md5_hexdigest s) = 32%nat.

Lemma synthetic_name_inj p p' :
  synthetic_name md5_hexdigest p = synthetic_name md5_hexdigest p' -> p = p'.
Proof.
  unfold synthetic_name. intros H.
  rewrite <- (str_from_app (md5_hexdigest p) p), H.
  rewrite md5_hexdigest_length, <- (md5_hexdigest_length p').
  apply str_from_app.
Qed.

Lemma baseline_count_pair p ty ns p0 :
  (baseline_count md5_hexdigest p ty [baseline_A md5_hexdigest ns p0; baseline_CNAME md5_hexdigest ns p0]
   <= if String.eqb p0 p then 1 else 0)%nat.
Proof.
  unfold baseline_count, asks_baseline, baseline_A, baseline_CNAME.
  cbn [List.filter is_baseline_query q_via q_type q_name andb].
  destruct (String.eqb p0 p) eqn:E.
  - apply String.eqb_eq in E. subst p0. rewrite String.eqb_refl.
    destruct ty; simpl; lia.
  - assert (N : String.eqb (synthetic_name md5_hexdigest p0)
                           (synthetic_name md5_hexdigest p) = false).
    { apply String.eqb_neq. intros H. apply synthetic_name_inj in H.
      apply String.eqb_neq in E. contradiction. }
    rewrite N, !andb_false_r. simpl. lia.
Qed.

Lemma once_invariant_quiet st st' :
  once_invariant md5_hexdigest st -> quiet_step st st' -> once_invariant md5_hexdigest st'.
Proof.
  intros I (sq & T & F & B) p ty. rewrite T, B, baseline_count_app.
  rewrite (baseline_count_quiet p ty sq F), Nat.add_0_r. apply I.
Qed.

Lemma once_invariant_populate st st' :
  once_invariant md5_hexdigest st -> populate_step md5_hexdigest st st' -> once_invariant md5_hexdigest st'.
Proof.
  intros I (p0 & ns & r & sq & N & T & F & B) p ty.
  rewrite T, B, !baseline_count_app, (baseline_count_quiet p ty sq F), Nat.add_0_r.
  pose proof (baseline_count_pair p ty ns p0) as Hc.
  destruct (String.eqb p0 p) eqn:E.
  - apply String.eqb_eq in E. subst p0.
    destruct (I p ty) as [_ I0]. rewrite (I0 N), lookup_insert_eq.
    split; [lia | discriminate].
  - apply String.eqb_neq in E. rewrite lookup_insert_ne by exact E.
    destruct (I p ty) as [I1 I0]. split; [lia|].
    intros H. rewrite (I0 H). lia.
Qed.

Lemma once_invariant_query d st :
  once_invariant md5_hexdigest st -> once_invariant md5_hexdigest (snd (query_a_cname net md5_hexdigest psl d st)).
Proof.
  intros I. destruct (query_a_cname_step d st) as [H | H].
  - eapply once_invariant_quiet; eassumption.
  - eapply once_invariant_populate; eassumption.
Qed.

Lemma once_invariant_consume queue st :
  once_invariant md5_hexdigest st -> once_invariant md5_hexdigest (snd (consume net md5_hexdigest psl queue st)).
Proof.
  revert st. induction queue as [|[sub_domain|] queue IH]; intros st I; try exact I.
  simpl. unfold bind at 1.
  pose proof (once_invariant_query sub_domain st I) as I1.
  destruct (query_a_cname net md5_hexdigest psl sub_domain st) as [[[r|]|e] st1];
    simpl in I1; [| |exact I1].
  - unfold bind, modify. apply IH. exact I1.
  - unfold bind, ret. apply IH. exact I1.
Qed.

(** The bootstrap asks through default resolvers only. *)
Lemma gather_quiet (names : list HostResult) st :
  quiet_step st (snd (gather (ns_host_lookups net names) st)).
Proof.
  revert st. induction names as [|n names IH]; intros st; [apply quiet_step_refl|].
  cbn [ns_host_lookups map gather]. fold (ns_host_lookups net names).
  unfold query_hosts.
  set (q := mkQuery DefaultResolver (host n) QUERY_TYPE_A).
  assert (Hq : quiet_step st (add_trace q st)).
  { exists [q]. repeat split. repeat constructor. }
  pose proof (IH (add_trace q st)) as H.
  destruct (answer_hosts net (trace st) q) as [a|].
  - destruct (gather (ns_host_lookups net names) (add_trace q st)) as [[l|e] st2];
      simpl in *; eapply quiet_step_trans; eassumption.
  - simpl. eapply quiet_step_trans; eassumption.
Qed.

Lemma query_ns_quiet root st :
  quiet_step st (snd (_query_ns net root st)).
Proof.
  rewrite query_ns_eq.
  assert (Hq : quiet_step st (add_trace (question_NS root) st)).
  { exists [question_NS root]. repeat split. repeat constructor. }
  destruct (answer_hosts net (trace st) (question_NS root)) as [[|n names]|];
    try exact Hq.
  pose proof (gather_quiet (n :: names) (add_trace (question_NS root) st)) as H.
  destruct (gather (ns_host_lookups net (n :: names)) (add_trace (question_NS root) st))
    as [[a|e] st2]; simpl in *; eapply quiet_step_trans; eassumption.
Qed.

Lemma once_invariant_query_loop root queue :
  once_invariant md5_hexdigest (snd (query_loop net md5_hexdigest psl root queue initial_state)).
Proof.
  unfold query_loop, bind, gets, run_thread. simpl.
  apply once_invariant_consume.
  eapply once_invariant_quiet; [|apply query_ns_quiet].
  intros p ty. split; [apply Nat.le_0_l | reflexivity].
Qed.

End AtMostOnce.

(** C7: a populator run that completes stores a record for the parent,
    also when both questions failed and the answer is empty; once a parent
    is cached, [ensure_baseline] does nothing, a [query_a_cname] for a
    domain with that parent leaves the cache as it is and sends no baseline
    question, and the parent stays cached through every later
    [query_a_cname]; in a whole run of [query_loop] from the start of the
    process, each baseline question of a parent is sent at most once. *)
Theorem baseline_at_most_once net md5 psl :
  (forall p st st',
     _query_pan_dns net md5 p st = (Return tt, st') ->
     is_Some (_black_list st' !! p)) /\
  (forall p st ns,
     _resolver st = Some ns ->
     is_ascii p = true ->
     answer_hosts net (trace st) (baseline_A md5 ns p) = None ->
     answer_cname net (trace st ++ [baseline_A md5 ns p]) (baseline_CNAME md5 ns p) = None ->
     exists st',
       _query_pan_dns net md5 p st = (Return tt, st') /\
       _black_list st' !! p = Some (mkRecord p QUERY_TYPE_A (-1) [])) /\
  (forall p st,
     is_Some (_black_list st !! p) ->
     ensure_baseline net md5 p st = (Return tt, st)) /\
  (forall d p st,
     fst (_parent_domain psl d st) = Return p ->
     is_Some (_black_list st !! p) ->
     let st' := snd (query_a_cname net md5 psl d st) in
     _black_list st' = _black_list st /\
     baseline_queries (trace st') = baseline_queries (trace st)) /\
  (forall d p st,
     is_Some (_black_list st !! p) ->
     is_Some (_black_list (snd (query_a_cname net md5 psl d st)) !! p)) /\
  ((forall s, String.length (md5 s) = 32%nat) ->
   forall root queue p ty,
     (baseline_count md5 p ty
        (trace (snd (query_loop net md5 psl root queue initial_state))) <= 1)%nat).
Proof.
  repeat apply conj.
  - intros p st st' H.
    destruct (_resolver st) as [ns|] eqn:Hr.
    + destruct (is_ascii p) eqn:Ha.
      * destruct (query_pan_dns_bound net md5 p st ns Hr Ha) as (st2 & E & _ & _ & _ & Hb).
        rewrite E in H. injection H as <-. rewrite Hb, lookup_insert_eq. eauto.
      * rewrite (query_pan_dns_not_ascii net md5 p st ns Hr Ha) in H. discriminate.
    + rewrite (query_pan_dns_unbound net md5 p st Hr) in H. discriminate.
  - intros p st ns Hr Ha HA HC.
    destruct (query_pan_dns_bound net md5 p st ns Hr Ha) as (st2 & E & _ & _ & _ & Hb).
    exists st2. split; [exact E|]. rewrite Hb, HA, HC. apply lookup_insert_eq.
  - intros p st. apply ensure_baseline_cached.
  - intros d p st Hp Hc st'.
    pose proof (query_a_cname_cached_quiet net md5 psl d st p Hp Hc) as Hq.
    split; [|now apply baseline_queries_quiet].
    destruct Hq as (sq & _ & _ & B). exact B.
  - intros d p st [r Hc].
    destruct (query_a_cname_step net md5 psl d st)
      as [(sq & _ & _ & B) | (p0 & ns & r0 & sq & _ & _ & _ & B)]; rewrite B.
    + eauto.
    + rewrite lookup_insert. destruct (decide (p0 = p)); eauto.
  - intros Hlen root queue p ty.
    apply (once_invariant_query_loop net md5 psl Hlen root queue p ty).
Qed.

Lemma md5_example_length (s : string) : String.length (md5_example s) = 32%nat.
Proof. unfold md5_example. destruct (String.eqb s "example.com"); reflexivity. Qed.

Lemma baseline_at_most_once_witness :
  (exists st',
     _query_pan_dns unreachable_network md5_example "example.com" bootstrapped_state
     = (Return tt, st') /\
     _black_list st' !! "example.com"
     = Some (mkRecord "example.com" QUERY_TYPE_A (-1) [])) /\
  (_black_list (snd (query_a_cname both_kinds_network md5_example psl_example
                       "www.example.com" wildcard_state))
   = _black_list wildcard_state /\
   baseline_queries (trace (snd (query_a_cname both_kinds_network md5_example psl_example
                                   "www.example.com" wildcard_state)))
   = baseline_queries (trace wildcard_state)) /\
  (baseline_count md5_example "example.com" QUERY_TYPE_A
     (trace (snd (query_loop both_kinds_network md5_example psl_example "example.com"
                    [Some "www.example.com"; Some "mail.example.com"; None]
                    initial_state))) <= 1)%nat.
Proof.
  split; [|split].
  - apply (proj1 (proj2 (baseline_at_most_once unreachable_network md5_example psl_example))
             "example.com" bootstrapped_state example_nameservers); reflexivity.
  - apply (proj1 (proj2 (proj2 (proj2
             (baseline_at_most_once both_kinds_network md5_example psl_example))))
             "www.example.com" "example.com" wildcard_state).
    + reflexivity.
    + exists wildcard_baseline. reflexivity.
  - apply (proj2 (proj2 (proj2 (proj2 (proj2
             (baseline_at_most_once both_kinds_network md5_example psl_example)))))).
    exact md5_example_length.
Defined.

(** ** C3: what the populator stores for an A answer *)

Lemma fold_append_hosts (records : list HostResult) (record : DNSRecord) :
  fold_left
    (fun record record_ =>
       if negb (py_in (PyHostResult record_) (answer record))
       then append_answer (host record_) record
       else record)
    records record
  = mkRecord (domain record) (type record) (ttl record)
             (answer record ++ map host records).
Proof.
  revert record. induction records as [|x records IH]; intros record.
  - simpl. rewrite app_nil_r. now destruct record.
  - simpl. rewrite IH. simpl. now rewrite <- app_assoc.
Qed.

(** C3, as the code has it: for an A answer the populator appends the host
    of every returned record, present already or not (the membership test
    is made on the result object, which no string of the answer equals),
    and sets the ttl to the ttl of the first record; on an A answer that
    holds 198.51.100.9 twice, the stored baseline answer holds it twice. *)
Theorem pan_dns_appends_every_host :
  (forall first rest record,
     pan_dns_update QUERY_TYPE_A (HostRecords (first :: rest)) record
     = mkRecord (domain record) (type record) (host_ttl first)
                (answer record ++ map host (first :: rest))) /\
  _black_list (snd (_query_pan_dns duplicate_answer_network md5_example "example.com"
                      bootstrapped_state)) !! "example.com"
  = Some (mkRecord "example.com" QUERY_TYPE_A 300 ["198.51.100.9"; "198.51.100.9"]) /\
  ~ NoDup ["198.51.100.9"; "198.51.100.9"].
Proof.
  split; [|split].
  - intros first rest record. unfold pan_dns_update. now rewrite fold_append_hosts.
  - vm_compute. reflexivity.
  - intros H. apply NoDup_cons in H. destruct H as [H _]. apply H. constructor.
Qed.

(** ** C2: one nameserver host that does not resolve *)

(** The batch sends one question per host, whatever the answers. *)
Lemma gather_trace net (names : list HostResult) st :
  trace (snd (gather (ns_host_lookups net names) st))
  = (trace st ++ map question_host names)%list /\
  _resolver (snd (gather (ns_host_lookups net names) st)) = _resolver st.
Proof.
  revert st. induction names as [|n names IH]; intros st.
  - simpl. now rewrite app_nil_r.
  - cbn [ns_host_lookups map gather]. fold (ns_host_lookups net names).
    unfold query_hosts. fold (question_host n).
    destruct (IH (add_trace (question_host n) st)) as [Ht Hr].
    destruct (answer_hosts net (trace st) (question_host n)) as [a|].
    + destruct (gather (ns_host_lookups net names) (add_trace (question_host n) st))
        as [[l|e] st2]; simpl in *; rewrite Ht, <- app_assoc; auto.
    + simpl in *. rewrite Ht, <- app_assoc. auto.
Qed.

(** The batch raises when the lookup of one host fails. *)
Lemma gather_one_fails net (pre : list HostResult) n post st :
  answer_hosts net (trace st ++ map question_host pre) (question_host n) = None ->
  fst (gather (ns_host_lookups net (pre ++ n :: post)) st) = Raise DNSError.
Proof.
  revert st. induction pre as [|x pre IH]; intros st H.
  - simpl in H. rewrite app_nil_r in H.
    cbn [app ns_host_lookups map gather]. unfold query_hosts. fold (question_host n).
    now rewrite H.
  - cbn [app ns_host_lookups map gather]. fold (ns_host_lookups net (pre ++ n :: post)).
    unfold query_hosts. fold (question_host x).
    assert (IH' : fst (gather (ns_host_lookups net (pre ++ n :: post))
                         (add_trace (question_host x) st)) = Raise DNSError).
    { apply IH. simpl. rewrite <- app_assoc. exact H. }
    destruct (answer_hosts net (trace st) (question_host x)) as [a|]; [|reflexivity].
    destruct (gather (ns_host_lookups net (pre ++ n :: post))
                (add_trace (question_host x) st)) as [[l|e] st2]; simpl in *;
      [discriminate | exact IH'].
Qed.

(** C2, as the code has it: when the NS question is answered with a list
    of hosts and the A question for one of them fails, the failure leaves
    [gather] and [_query_ns]: the bootstrap ends with the exception and
    without a resolver, whatever the other hosts resolve to. *)
Theorem one_failed_ns_host_aborts_bootstrap net root st
    (pre : list HostResult) (n : HostResult) (post : list HostResult) :
  answer_hosts net (trace st) (question_NS root) = Some (pre ++ n :: post)%list ->
  answer_hosts net (trace st ++ question_NS root :: map question_host pre)
    (question_host n) = None ->
  fst (_query_ns net root st) = Raise DNSError /\
  _resolver (snd (_query_ns net root st)) = _resolver st.
Proof.
  intros Hns Hn. rewrite query_ns_eq, Hns.
  assert (Hg : fst (gather (ns_host_lookups net (pre ++ n :: post))
                      (add_trace (question_NS root) st)) = Raise DNSError).
  { apply gather_one_fails. simpl. rewrite <- app_assoc. exact Hn. }
  destruct (gather_trace net (pre ++ n :: post)%list (add_trace (question_NS root) st))
    as [_ Hr].
  destruct (pre ++ n :: post)%list as [|x l] eqn:E; [now destruct pre|].
  destruct (gather (ns_host_lookups net (x :: l)) (add_trace (question_NS root) st))
    as [[a|e] st2]; simpl in *; [discriminate|].
  injection Hg as ->. split; [reflexivity | exact Hr].
Qed.

Lemma one_failed_ns_host_aborts_bootstrap_witness :
  fst (_query_ns one_ns_host_down "example.com" initial_state) = Raise DNSError /\
  _resolver (snd (_query_ns one_ns_host_down "example.com" initial_state)) = None.
Proof.
  apply (one_failed_ns_host_aborts_bootstrap one_ns_host_down "example.com" initial_state
           [mkHost "ns1.example.com" 3600] (mkHost "ns2.example.com" 3600) []);
    reflexivity.
Defined.

(** The run of the example: the three questions are sent, ns1 resolves,
    and the pipeline then works without a resolver. *)
Lemma one_ns_host_down_run :
  trace (snd (_query_ns one_ns_host_down "example.com" initial_state))
  = [question_NS "example.com";
     mkQuery DefaultResolver "ns1.example.com" QUERY_TYPE_A;
     mkQuery DefaultResolver "ns2.example.com" QUERY_TYPE_A] /\
  answer_hosts one_ns_host_down [question_NS "example.com"]
    (mkQuery DefaultResolver "ns1.example.com" QUERY_TYPE_A)
  = Some [mkHost "203.0.113.1" 3600] /\
  _resolver (snd (query_loop one_ns_host_down md5_example psl_example "example.com"
                    [Some "www.example.com"; None] initial_state)) = None /\
  fst (query_loop one_ns_host_down md5_example psl_example "example.com"
         [Some "www.example.com"; None] initial_state) = Return Finished.
Proof. vm_compute. repeat split; reflexivity. Qed.

(** ** C9: the NS question of the root domain fails *)

Lemma is_pan_dns_no_exit psl r st code :
  fst (_is_pan_dns psl r st) <> Raise (SystemExit code).
Proof.
  unfold _is_pan_dns, bind, gets. rewrite parent_domain_eq.
  destruct (String.eqb _ _); simpl.
  - destruct (_black_list st !! domain r) as [pan|]; [|discriminate].
    destruct (answer pan); [discriminate|].
    destruct (_ && _); [discriminate|]. destruct (_ && _); discriminate.
  - destruct (str_index "." (domain r)); [|discriminate].
    destruct (_black_list st !! _) as [pan|]; [|simpl; discriminate].
    destruct (answer pan); [discriminate|].
    destruct (_ && _); [discriminate|]. destruct (_ && _); discriminate.
Qed.

Lemma lookup_loop_returns net d st :
  exists c, fst (lookup_loop net d [QUERY_TYPE_A; QUERY_TYPE_CNAME] None st) = Return c.
Proof.
  destruct (_resolver st) as [ns|] eqn:Hr.
  - rewrite (lookup_loop_bound net d st ns Hr).
    destruct (answer_hosts net (trace st) _) as [[|first rest]|]; simpl; eauto;
      destruct (answer_cname net _ _); eauto.
  - rewrite (lookup_loop_unbound net d st Hr). eauto.
Qed.

Lemma query_a_cname_no_exit net md5 psl d st code :
  fst (query_a_cname net md5 psl d st) <> Raise (SystemExit code).
Proof.
  destruct (fst (_parent_domain psl d st)) as [p|e] eqn:Hp.
  - rewrite (query_a_cname_eq net md5 psl d st p Hp).
    destruct (lookup_loop_returns net d (before_lookup net md5 psl d st)) as [c Hc].
    destruct (lookup_loop net d [QUERY_TYPE_A; QUERY_TYPE_CNAME] None _) as [o st3].
    simpl in Hc. subst o. destruct c as [r|]; [|discriminate].
    simpl. pose proof (is_pan_dns_no_exit psl r st3 code) as H.
    destruct (fst (_is_pan_dns psl r st3)) as [[|]|e]; simpl; congruence.
  - rewrite (query_a_cname_no_parent net md5 psl d st e Hp). simpl.
    rewrite parent_domain_eq in Hp. simpl in Hp.
    destruct (String.eqb _ _); [discriminate|].
    destruct (str_index "." d); [discriminate|]. injection Hp as <-. discriminate.
Qed.

Lemma consume_no_exit net md5 psl queue st code :
  fst (consume net md5 psl queue st) <> Raise (SystemExit code).
Proof.
  revert st. induction queue as [|[sub_domain|] queue IH]; intros st; try discriminate.
  simpl. unfold bind at 1.
  pose proof (query_a_cname_no_exit net md5 psl sub_domain st code) as H.
  destruct (query_a_cname net md5 psl sub_domain st) as [[[r|]|e] st1]; simpl in H.
  - unfold bind, modify. apply IH.
  - unfold bind, ret. apply IH.
  - simpl. intros E. apply H. injection E as ->. reflexivity.
Qed.

(** C9, as the code has it: when the NS question fails or is answered
    with no record, [_query_ns] logs the domain, the empty NS list and the
    error and raises [SystemExit(1)] without a resolver; but [query_loop]
    runs it on a thread, where the exit ends the thread only: [query_loop]
    goes on to read the queue and returns at the sentinel, and no run of it
    ends in [SystemExit]. *)
Theorem exit_in_bootstrap_thread :
  _query_ns unreachable_network "example.com" initial_state
  = (Raise (SystemExit 1),
     add_log (LogError "example.com" [] (Some DNSError))
       (add_trace (question_NS "example.com") initial_state)) /\
  _query_ns no_ns_record_network "example.com" initial_state
  = (Raise (SystemExit 1),
     add_log (LogError "example.com" [] None)
       (add_trace (question_NS "example.com") initial_state)) /\
  fst (query_loop unreachable_network md5_example psl_example "example.com"
         [Some "www.example.com"; None] initial_state) = Return Finished /\
  _resolver (snd (query_loop unreachable_network md5_example psl_example "example.com"
                    [Some "www.example.com"; None] initial_state)) = None /\
  (forall net md5 psl root queue st code,
     fst (query_loop net md5 psl root queue st) <> Raise (SystemExit code)).
Proof.
  split; [|split; [|split; [|split]]]; try (vm_compute; reflexivity).
  intros net md5 psl root queue st code.
  unfold query_loop, bind, gets.
  destruct (_resolver st); simpl; apply consume_no_exit.
Qed.

(** ** The bootstrap when every host resolves *)

Lemma elem_of_collect_hosts (a_record : list HostResult) (s : gset string) ip :
  ip ∈ fold_left (fun ns_servers a => ns_servers ∪ {[ host a ]}) a_record s <->
  ip ∈ s \/ exists a, a ∈ a_record /\ host a = ip.
Proof.
  revert s. induction a_record as [|x l IH]; intros s; simpl.
  - split; [auto|]. intros [H | (a & Ha & _)]; [exact H|]. now apply not_elem_of_nil in Ha.
  - rewrite IH. split.
    + intros [H | (a & Ha & E)].
      * apply elem_of_union in H. destruct H as [H | H]; [auto|].
        apply elem_of_singleton in H. right. exists x. split; [constructor | auto].
      * right. exists a. split; [now constructor | exact E].
    + intros [H | (a & Ha & E)].
      * left. apply elem_of_union. auto.
      * apply elem_of_cons in Ha. destruct Ha as [-> | Ha].
        -- left. apply elem_of_union. right. now apply elem_of_singleton.
        -- right. eauto.
Qed.

Lemma elem_of_collect_ns_servers_from (a_records : list (list HostResult))
    (s : gset string) ip :
  ip ∈ fold_left
         (fun ns_servers a_record =>
            fold_left (fun ns_servers a => ns_servers ∪ {[ host a ]}) a_record ns_servers)
         a_records s <->
  ip ∈ s \/ exists a_record a, a_record ∈ a_records /\ a ∈ a_record /\ host a = ip.
Proof.
  revert s. induction a_records as [|x l IH]; intros s; simpl.
  - split; [auto|]. intros [H | (r & a & Hr & _)]; [exact H|].
    now apply not_elem_of_nil in Hr.
  - rewrite IH, elem_of_collect_hosts. split.
    + intros [[H | (a & Ha & E)] | (r & a & Hr & Ha & E)].
      * auto.
      * right. exists x, a. split; [constructor | auto].
      * right. exists r, a. split; [now constructor | auto].
    + intros [H | (r & a & Hr & Ha & E)]; [auto|].
      apply elem_of_cons in Hr. destruct Hr as [-> | Hr]; [eauto | eauto 10].
Qed.

Lemma elem_of_collect_ns_servers (a_records : list (list HostResult)) ip :
  ip ∈ collect_ns_servers a_records <->
  exists a_record a, a_record ∈ a_records /\ a ∈ a_record /\ host a = ip.
Proof.
  unfold collect_ns_servers. rewrite elem_of_collect_ns_servers_from.
  split; [|auto]. intros [H | H]; [|exact H]. now apply not_elem_of_empty in H.
Qed.

(** [gather] over the host lookups returns the answers of the network, or
    raises when one is missing. *)
Lemma gather_batch_answers net (names : list HostResult) st :
  fst (gather (ns_host_lookups net names) st) =
  match batch_answers net (trace st) names with
  | Some l => Return l
  | None => Raise DNSError
  end.
Proof.
  revert st. induction names as [|n names IH]; intros st; [reflexivity|].
  cbn [ns_host_lookups map gather batch_answers]. fold (ns_host_lookups net names).
  unfold query_hosts. fold (question_host n).
  specialize (IH (add_trace (question_host n) st)). simpl in IH.
  destruct (answer_hosts net (trace st) (question_host n)) as [a|].
  - destruct (gather (ns_host_lookups net names) (add_trace (question_host n) st))
      as [[l|e] st2]; simpl in *;
      destruct (batch_answers net (trace st ++ [question_host n]) names);
      congruence.
  - reflexivity.
Qed.

(** X1: when the NS question is answered with hosts, the A question for
    every host is answered and at least one address is found, [_query_ns]
    returns, has sent the NS question and then one A question per host in
    order, and binds [_resolver] to the set of all addresses of all the
    answers, which is not empty. *)
Theorem bootstrap_binds_every_address net root st
    (n : HostResult) (names : list HostResult) (a_records : list (list HostResult)) :
  answer_hosts net (trace st) (question_NS root) = Some (n :: names) ->
  batch_answers net (trace st ++ [question_NS root]) (n :: names) = Some a_records ->
  (exists a_record a, a_record ∈ a_records /\ a ∈ a_record) ->
  fst (_query_ns net root st) = Return tt /\
  trace (snd (_query_ns net root st))
  = (trace st ++ question_NS root :: map question_host (n :: names))%list /\
  exists ns,
    _resolver (snd (_query_ns net root st)) = Some ns /\
    ns <> ∅ /\
    forall ip, ip ∈ ns <->
               exists a_record a, a_record ∈ a_records /\ a ∈ a_record /\ host a = ip.
Proof.
  intros Hns Hb (a_record & a0 & Hrec & Ha0). rewrite query_ns_eq, Hns.
  pose proof (gather_batch_answers net (n :: names) (add_trace (question_NS root) st)) as Hg.
  simpl trace in Hg. rewrite Hb in Hg.
  destruct (gather_trace net (n :: names) (add_trace (question_NS root) st)) as [Ht _].
  destruct (gather (ns_host_lookups net (n :: names)) (add_trace (question_NS root) st))
    as [[a|e] st2]; simpl in Hg; [|discriminate].
  injection Hg as ->. simpl in Ht. simpl.
  split; [reflexivity|]. split.
  - rewrite Ht, <- app_assoc. reflexivity.
  - eexists. split; [reflexivity|]. split; [|apply elem_of_collect_ns_servers].
    intros E.
    assert (Hin : host a0 ∈ collect_ns_servers a_records).
    { apply elem_of_collect_ns_servers. eauto. }
    rewrite E in Hin. now apply not_elem_of_empty in Hin.
Qed.

(** ** What the pipeline keeps of the state *)

Section Frame.

Variable net : Network.
Variable md5_hexdigest : string -> string.
Variable psl : string -> string.

Lemma frame_same st st' :
  _resolver st' = _resolver st ->
  psl_in psl st' = psl_in psl st ->
  trace st' = trace st ->
  _black_list st' = _black_list st ->
  pipeline_frame psl 0 st st'.
Proof.
  intros R P T B. split; auto.
  - exists []. rewrite app_nil_r. repeat split; auto.
  - intros p r. now rewrite B.
  - intros p r. rewrite B. auto.
Qed.

Lemma frame_weaken n m st st' :
  (n <= m)%nat -> pipeline_frame psl n st st' -> pipeline_frame psl m st st'.
Proof.
  intros L [R P (sq & T & Len & N & V) K W]. split; auto.
  exists sq. repeat split; auto. lia.
Qed.

Lemma frame_trans n m st1 st2 st3 :
  pipeline_frame psl n st1 st2 ->
  pipeline_frame psl m st2 st3 ->
  pipeline_frame psl (n + m) st1 st3.
Proof.
  intros [R1 P1 (s1 & T1 & L1 & N1 & V1) K1 W1] [R2 P2 (s2 & T2 & L2 & N2 & V2) K2 W2].
  split.
  - congruence.
  - congruence.
  - exists (s1 ++ s2)%list. rewrite T2, T1, app_assoc, length_app.
    repeat split; [lia | |].
    + intros H. rewrite (N1 H), N2; [reflexivity | congruence].
    + intros ns H. apply Forall_app. split; [auto|]. apply V2. congruence.
  - auto.
  - intros p r H. destruct (W2 p r H) as [H2 | (H2 & D & Ty)].
    + apply W1 in H2. exact H2.
    + right. repeat split; auto.
      destruct (_black_list st1 !! p) as [r'|] eqn:E; [|reflexivity].
      apply K1 in E. congruence.
Qed.

(** The populator, when it can start. *)
Lemma query_pan_dns_eq p st ns :
  _resolver st = Some ns ->
  is_ascii p = true ->
  _query_pan_dns net md5_hexdigest p st =
  (Return tt,
   let st2 := add_trace (baseline_CNAME md5_hexdigest ns p)
                (add_trace (baseline_A md5_hexdigest ns p) st) in
   let r := baseline_record p
              (answer_hosts net (trace st) (baseline_A md5_hexdigest ns p))
              (answer_cname net (trace st ++ [baseline_A md5_hexdigest ns p])
                 (baseline_CNAME md5_hexdigest ns p)) in
   set_black_list (<[p := r]> (_black_list st))
     (match answer r with
      | [] => st2
      | _ :: _ => add_log (LogDebugPan p (answer r)) st2
      end)).
Proof.
  intros H Ha.
  unfold _query_pan_dns, for_each, pan_dns_iteration, try_except, resolver_query,
    query_hosts, query_cname, bind, gets, modify, raise, ret, baseline_record,
    baseline_A, baseline_CNAME.
  rewrite H, Ha. cbv zeta. cbn [negb].
  destruct (answer_hosts net (trace st) _) as [a|]; cbn [trace add_trace];
    destruct (answer_cname net _ _) as [c|];
    match goal with
    | |- context [match answer ?r with _ => _ end] => destruct (answer r) eqn:E
    end; try rewrite E; reflexivity.
Qed.

Lemma pan_dns_update_keyed query_type records record :
  domain (pan_dns_update query_type records record) = domain record /\
  type (pan_dns_update query_type records record) = type record.
Proof.
  unfold pan_dns_update.
  destruct query_type, records as [[|first rest]|c]; simpl; auto.
  - rewrite fold_append_hosts. simpl. auto.
  - destruct (negb _); [|auto]. destruct (truthy _); simpl; auto.
Qed.

Lemma baseline_record_keyed p a c :
  domain (baseline_record p a c) = p /\
  type (baseline_record p a c) = QUERY_TYPE_A.
Proof.
  unfold baseline_record. cbv zeta.
  destruct c as [c|], a as [a|];
    repeat match goal with
           | |- context [pan_dns_update ?q ?rs ?r] =>
               let H := fresh in
               destruct (pan_dns_update_keyed q rs r) as [H ?];
               rewrite H; clear H;
               let H' := fresh in
               match goal with E : type _ = type _ |- _ => rewrite E; clear E end
           end; simpl; auto.
Qed.

Lemma ensure_baseline_frame p st :
  pipeline_frame psl 2 st (snd (ensure_baseline net md5_hexdigest p st)).
Proof.
  destruct (_black_list st !! p) as [r|] eqn:Hb.
  - rewrite ensure_baseline_cached by eauto.
    apply frame_weaken with (n := 0%nat); [lia | now apply frame_same].
  - unfold ensure_baseline, bind, gets, run_thread. rewrite Hb. cbn [fst snd].
    destruct (_resolver st) as [ns|] eqn:Hr.
    + destruct (is_ascii p) eqn:Ha.
      * rewrite (query_pan_dns_eq p st ns Hr Ha). cbn [snd]. cbv zeta.
        set (r := baseline_record p _ _).
        destruct (baseline_record_keyed p
                    (answer_hosts net (trace st) (baseline_A md5_hexdigest ns p))
                    (answer_cname net (trace st ++ [baseline_A md5_hexdigest ns p])
                       (baseline_CNAME md5_hexdigest ns p))) as [D T].
        fold r in D, T.
        assert (Hst : forall st2,
                  _resolver st2 = _resolver st -> _psl st2 = _psl st ->
                  trace st2 = (trace st ++ [baseline_A md5_hexdigest ns p;
                                            baseline_CNAME md5_hexdigest ns p])%list ->
                  pipeline_frame psl 2 st
                    (set_black_list (<[p := r]> (_black_list st)) st2)).
        { intros st2 R P T2. split; simpl; auto.
          - unfold psl_in. simpl. now rewrite P.
          - eexists. split; [exact T2|]. repeat split; [simpl; lia | congruence |].
            intros ns' E. rewrite Hr in E. injection E as <-.
            repeat constructor; right; reflexivity.
          - intros q r' H. rewrite lookup_insert_ne; [exact H | congruence].
          - intros q r' H. rewrite lookup_insert in H.
            destruct (decide (p = q)) as [<- | N]; [|auto].
            injection H as <-. auto. }
        destruct (answer r); apply Hst; simpl; rewrite <- ?app_assoc; reflexivity.
      * rewrite (query_pan_dns_not_ascii net md5_hexdigest p st ns Hr Ha).
        apply frame_weaken with (n := 0%nat); [lia | now apply frame_same].
    + rewrite (query_pan_dns_unbound net md5_hexdigest p st Hr).
      apply frame_weaken with (n := 0%nat); [lia | now apply frame_same].
Qed.

Lemma lookup_loop_frame d st :
  pipeline_frame psl 2 st
    (snd (lookup_loop net d [QUERY_TYPE_A; QUERY_TYPE_CNAME] None st)).
Proof.
  destruct (_resolver st) as [ns|] eqn:Hr.
  - rewrite (lookup_loop_bound net d st ns Hr).
    assert (HA : via_ns ns (question_A ns d)) by (left; reflexivity).
    assert (HC : via_ns ns (question_CNAME ns d)) by (left; reflexivity).
    assert (H2 : pipeline_frame psl 2 st
                   (add_trace (question_CNAME ns d) (add_trace (question_A ns d) st))).
    { split; simpl; auto. exists [question_A ns d; question_CNAME ns d].
      rewrite <- app_assoc. repeat split; [simpl; lia | congruence |].
      intros ns' E. rewrite Hr in E. injection E as <-. repeat constructor; auto. }
    destruct (answer_hosts net (trace st) _) as [[|first rest]|]; cbn [snd]; auto.
    split; simpl; auto. exists [question_A ns d].
    repeat split; [simpl; lia | congruence |].
    intros ns' E. rewrite Hr in E. injection E as <-. repeat constructor; auto.
  - rewrite (lookup_loop_unbound net d st Hr).
    apply frame_weaken with (n := 0%nat); [lia | now apply frame_same].
Qed.

Lemma before_lookup_frame d st :
  pipeline_frame psl 2 st (before_lookup net md5_hexdigest psl d st).
Proof.
  unfold before_lookup. rewrite parent_domain_eq.
  set (st1 := set_psl (Some (psl_in psl st)) st).
  assert (H1 : pipeline_frame psl 0 st st1) by now apply frame_same.
  destruct (if String.eqb d (psl_in psl st d) then _ else _) as [p|e].
  - apply (frame_trans 0 2 st st1); [exact H1 | apply ensure_baseline_frame].
  - apply frame_weaken with (n := 0%nat); [lia | exact H1].
Qed.

Lemma query_a_cname_frame d st :
  pipeline_frame psl 4 st (snd (query_a_cname net md5_hexdigest psl d st)).
Proof.
  destruct (fst (_parent_domain psl d st)) as [p|e] eqn:Hp.
  - rewrite (query_a_cname_eq net md5_hexdigest psl d st p Hp).
    pose proof (before_lookup_frame d st) as H2.
    set (st2 := before_lookup net md5_hexdigest psl d st) in *.
    pose proof (lookup_loop_frame d st2) as H3.
    destruct (lookup_loop net d [QUERY_TYPE_A; QUERY_TYPE_CNAME] None st2)
      as [[[r|]|e] st3]; cbn [snd] in *.
    + apply (frame_trans 2 2 st st2); [exact H2|].
      apply (frame_trans 2 0 st2 st3); [exact H3 | now apply frame_same].
    + apply (frame_trans 2 2 st st2); assumption.
    + apply (frame_trans 2 2 st st2); assumption.
  - rewrite (query_a_cname_no_parent net md5_hexdigest psl d st e Hp). cbn [snd].
    apply frame_weaken with (n := 0%nat); [lia | now apply frame_same].
Qed.

Lemma consume_frame queue st :
  pipeline_frame psl (4 * length queue) st
    (snd (consume net md5_hexdigest psl queue st)).
Proof.
  revert st. induction queue as [|[sub_domain|] queue IH]; intros st.
  - now apply frame_same.
  - cbn [consume length]. unfold bind at 1.
    pose proof (query_a_cname_frame sub_domain st) as H1.
    destruct (query_a_cname net md5_hexdigest psl sub_domain st) as [[[r|]|e] st1];
      cbn [snd] in H1.
    + unfold bind, modify.
      apply frame_weaken with (n := (4 + 4 * length queue)%nat); [lia|].
      apply (frame_trans 4 _ st st1); [exact H1|].
      apply (frame_trans 0 _ st1 (add_log (LogInfo r) st1)); [now apply frame_same|].
      apply IH.
    + unfold bind, ret.
      apply frame_weaken with (n := (4 + 4 * length queue)%nat); [lia|].
      apply (frame_trans 4 _ st st1); [exact H1 | apply IH].
    + apply frame_weaken with (n := 4%nat); [lia | exact H1].
  - apply frame_weaken with (n := 0%nat); [lia | now apply frame_same].
Qed.

End Frame.

(** ** More on the wildcard decision and on parents *)

(** X9: a record with an answer that the cached baseline of its parent
    does not hold is not a wildcard, whatever its kind and its ttl. *)
Theorem is_pan_dns_foreign_answer psl record st parent pan a :
  fst (_parent_domain psl (domain record) st) = Return parent ->
  _black_list st !! parent = Some pan ->
  a ∈ answer record ->
  a ∉ answer pan ->
  fst (_is_pan_dns psl record st) = Return false.
Proof.
  intros Hp Hb Ha Hn.
  rewrite (is_pan_dns_cached psl record st parent pan Hp Hb).
  assert (Hall : all_in record pan = false).
  { destruct (all_in record pan) eqn:E; [|reflexivity].
    destruct Hn. now apply (proj1 (all_in_subset record pan) E). }
  rewrite Hall, andb_false_r. simpl. now destruct (answer pan).
Qed.

Lemma is_pan_dns_foreign_answer_witness :
  fst (_is_pan_dns psl_example
         (mkRecord "mail.example.com" QUERY_TYPE_A 300 ["198.51.100.9"; "198.51.100.50"])
         wildcard_state) = Return false.
Proof.
  apply (is_pan_dns_foreign_answer psl_example
           (mkRecord "mail.example.com" QUERY_TYPE_A 300 ["198.51.100.9"; "198.51.100.50"])
           wildcard_state "example.com" wildcard_baseline "198.51.100.50").
  - reflexivity.
  - reflexivity.
  - right. left.
  - intros H. apply list_elem_of_singleton in H. discriminate H.
Defined.

Lemma string_length_app (a b : string) :
  String.length (a ++ b) = (String.length a + String.length b)%nat.
Proof. induction a as [|c a IH]; simpl; [reflexivity | now rewrite IH]. Qed.

Lemma split_at_first_dot (s : string) :
  has_dot s = true ->
  exists i label,
    str_index "." s = Some i /\
    s = label ++ "." ++ str_from (i + 1) s /\
    has_dot label = false.
Proof.
  induction s as [|c s IH]; [discriminate|].
  rewrite has_dot_String. simpl.
  destruct (Ascii.eqb c ".") eqn:Hc; simpl.
  - intros _. apply Ascii.eqb_eq in Hc. subst c.
    exists O, EmptyString. repeat split.
  - intros H. destruct (IH H) as (i & label & Hi & Hs & Hl).
    exists (S i), (String c label). rewrite Hi. repeat split.
    + change (String c s = String c (label ++ "." ++ str_from (i + 1) s)).
      f_equal. exact Hs.
    + rewrite has_dot_String, Hc, Hl. reflexivity.
Qed.

(** X14: on a domain that is not a root domain and contains a ".", the
    domain is its leftmost label, which has no ".", followed by "." and by
    the parent that [_parent_domain] returns; the parent is strictly
    shorter than the domain. *)
Theorem parent_domain_splits psl d st :
  fst (_is_root_domain psl d st) = Return false ->
  has_dot d = true ->
  exists label parent,
    fst (_parent_domain psl d st) = Return parent /\
    d = label ++ "." ++ parent /\
    has_dot label = false /\
    (String.length parent < String.length d)%nat.
Proof.
  rewrite is_root_domain_eq, parent_domain_eq. simpl.
  intros H Hdot. injection H as ->.
  destruct (split_at_first_dot d Hdot) as (i & label & Hi & Hs & Hl).
  rewrite Hi. exists label, (str_from (i + 1) d). repeat split; auto.
  remember (str_from (i + 1) d) as parent eqn:E. clear E.
  rewrite Hs, !string_length_app. change (String.length ".") with 1%nat. lia.
Qed.

Lemma parent_domain_splits_witness :
  exists label parent,
    fst (_parent_domain psl_example "a.b.example.com" initial_state) = Return parent /\
    "a.b.example.com" = label ++ "." ++ parent /\
    has_dot label = false /\
    (String.length parent < String.length "a.b.example.com")%nat.
Proof.
  apply (parent_domain_splits psl_example "a.b.example.com" initial_state); reflexivity.
Defined.

(** ** The loop of [query_loop] *)

Section Loop.

Variable net : Network.
Variable md5_hexdigest : string -> string.
Variable psl : string -> string.

Lemma consume_cons d queue st :
  consume net md5_hexdigest psl (Some d :: queue) st =
  match query_a_cname net md5_hexdigest psl d st with
  | (Return (Some r), st1) => consume net md5_hexdigest psl queue (add_log (LogInfo r) st1)
  | (Return None, st1) => consume net md5_hexdigest psl queue st1
  | (Raise e, st1) => (Raise e, st1)
  end.
Proof.
  cbn [consume]. unfold bind at 1.
  destruct (query_a_cname net md5_hexdigest psl d st) as [[[r|]|e] st1]; reflexivity.
Qed.

Lemma consume_sentinel (ds : list string) rest st :
  consume net md5_hexdigest psl (map Some ds ++ None :: rest) st
  = consume net md5_hexdigest psl (map Some ds ++ [None]) st.
Proof.
  revert st. induction ds as [|d ds IH]; intros st; [reflexivity|].
  cbn [map app consume]. unfold bind at 1 3.
  destruct (query_a_cname net md5_hexdigest psl d st) as [[[r|]|e] st1];
    [| |reflexivity]; unfold bind, modify, ret; apply IH.
Qed.

Lemma consume_with_sentinel (ds : list string) st :
  fst (consume net md5_hexdigest psl (map Some ds ++ [None]) st) <> Return AwaitingQueue.
Proof.
  revert st. induction ds as [|d ds IH]; intros st; [discriminate|].
  cbn [map app consume]. unfold bind at 1.
  destruct (query_a_cname net md5_hexdigest psl d st) as [[[r|]|e] st1];
    [| |discriminate]; unfold bind, modify, ret; apply IH.
Qed.

Lemma consume_without_sentinel (ds : list string) st :
  fst (consume net md5_hexdigest psl (map Some ds) st) <> Return Finished.
Proof.
  revert st. induction ds as [|d ds IH]; intros st; [discriminate|].
  cbn [map consume]. unfold bind at 1.
  destruct (query_a_cname net md5_hexdigest psl d st) as [[[r|]|e] st1];
    [| |discriminate]; unfold bind, modify, ret; apply IH.
Qed.

Lemma query_loop_consume root queue st :
  query_loop net md5_hexdigest psl root queue st
  = consume net md5_hexdigest psl queue
      (match _resolver st with
       | None => snd (_query_ns net root st)
       | Some _ => st
       end).
Proof.
  unfold query_loop, bind, gets, run_thread, ret. now destruct (_resolver st).
Qed.

End Loop.

(** X3: [query_loop] stops at the first sentinel: the items queued after
    it change nothing, and the loop does not stay waiting; on a queue
    without a sentinel it never returns. *)
Theorem sentinel_ends_query_loop net md5 psl root (ds : list string)
    (rest : list (option string)) st :
  query_loop net md5 psl root (map Some ds ++ None :: rest) st
  = query_loop net md5 psl root (map Some ds ++ [None]) st /\
  fst (query_loop net md5 psl root (map Some ds ++ None :: rest) st)
  <> Return AwaitingQueue /\
  fst (query_loop net md5 psl root (map Some ds) st) <> Return Finished.
Proof.
  rewrite !query_loop_consume, consume_sentinel.
  split; [reflexivity|]. split.
  - apply consume_with_sentinel.
  - apply consume_without_sentinel.
Qed.

(** X15: a candidate that is not a root domain and has no "." ends
    [query_loop] with [ValueError]: no question is sent for it, nothing is
    cached, and the candidates queued behind it are never looked up. *)
Theorem malformed_candidate_ends_query_loop net md5 psl root d
    (rest : list (option string)) st ns :
  _resolver st = Some ns ->
  fst (_is_root_domain psl d st) = Return false ->
  has_dot d = false ->
  fst (query_loop net md5 psl root (Some d :: rest) st) = Raise ValueError /\
  trace (snd (query_loop net md5 psl root (Some d :: rest) st)) = trace st /\
  log (snd (query_loop net md5 psl root (Some d :: rest) st)) = log st /\
  _black_list (snd (query_loop net md5 psl root (Some d :: rest) st)) = _black_list st.
Proof.
  intros Hr Hroot Hdot. rewrite query_loop_consume, Hr.
  assert (Hp : fst (_parent_domain psl d st) = Raise ValueError).
  { rewrite is_root_domain_eq in Hroot. rewrite parent_domain_eq. simpl in *.
    injection Hroot as ->. apply str_index_None_has_dot in Hdot. now rewrite Hdot. }
  assert (E : consume net md5 psl (Some d :: rest) st
              = (Raise ValueError, set_psl (Some (psl_in psl st)) st)).
  { cbn [consume]. unfold bind at 1.
    now rewrite (query_a_cname_no_parent net md5 psl d st ValueError Hp). }
  rewrite E. repeat split.
Qed.

Lemma malformed_candidate_ends_query_loop_witness :
  fst (query_loop both_kinds_network md5_example psl_example "example.com"
         [Some "LOCALHOST"; Some "www.example.com"; None] wildcard_state)
  = Raise ValueError /\
  trace (snd (query_loop both_kinds_network md5_example psl_example "example.com"
                [Some "LOCALHOST"; Some "www.example.com"; None] wildcard_state)) = [].
Proof.
  destruct (malformed_candidate_ends_query_loop both_kinds_network md5_example psl_example
              "example.com" "LOCALHOST" [Some "www.example.com"; None] wildcard_state
              example_nameservers eq_refl eq_refl eq_refl) as (H1 & H2 & _).
  split; [exact H1 | exact H2].
Defined.

(** ** The bootstrap leaves the cache and the public-suffix list alone *)

Lemma gather_keeps net (names : list HostResult) st :
  _black_list (snd (gather (ns_host_lookups net names) st)) = _black_list st /\
  _psl (snd (gather (ns_host_lookups net names) st)) = _psl st /\
  log (snd (gather (ns_host_lookups net names) st)) = log st.
Proof.
  revert st. induction names as [|n names IH]; intros st; [auto|].
  cbn [ns_host_lookups map gather]. fold (ns_host_lookups net names).
  unfold query_hosts. fold (question_host n).
  specialize (IH (add_trace (question_host n) st)).
  destruct (answer_hosts net (trace st) (question_host n)) as [a|].
  - destruct (gather (ns_host_lookups net names) (add_trace (question_host n) st))
      as [[l|e] st2]; exact IH.
  - exact IH.
Qed.

Lemma query_ns_keeps net root st :
  _black_list (snd (_query_ns net root st)) = _black_list st /\
  _psl (snd (_query_ns net root st)) = _psl st /\
  reported (log (snd (_query_ns net root st))) = reported (log st).
Proof.
  rewrite query_ns_eq.
  assert (Hrep : forall e l, match e with LogInfo _ => False | _ => True end ->
                             reported (l ++ [e]) = reported l).
  { intros e l He. induction l as [|x l IH]; simpl.
    - now destruct e.
    - destruct x; simpl; now rewrite IH. }
  destruct (answer_hosts net (trace st) (question_NS root)) as [[|n names]|];
    cbn [snd]; try (repeat split; simpl; auto; now apply Hrep).
  destruct (gather_keeps net (n :: names) (add_trace (question_NS root) st))
    as (B & P & L).
  destruct (gather (ns_host_lookups net (n :: names)) (add_trace (question_NS root) st))
    as [[a|e] st2]; cbn [snd] in *; simpl.
  - rewrite B, P, L. repeat split. now apply Hrep.
  - rewrite B, P, L. auto.
Qed.

(** ** The cache over a run *)

(** X11: an entry of the cache is written once: whatever [query_loop]
    does afterwards, the record stored for a parent stays the same. *)
Theorem cached_baseline_is_kept net md5 psl root queue st p r :
  _black_list st !! p = Some r ->
  _black_list (snd (query_loop net md5 psl root queue st)) !! p = Some r.
Proof.
  intros H. rewrite query_loop_consume.
  apply (frame_keep psl _ _ _ (consume_frame net md5 psl queue _)).
  destruct (_resolver st); [exact H|].
  destruct (query_ns_keeps net root st) as (B & _). now rewrite B.
Qed.

Lemma cached_baseline_is_kept_witness :
  _black_list (snd (query_loop wildcard_zone_network md5_example psl_example "example.com"
                      [Some "mail.example.com"; None] wildcard_state)) !! "example.com"
  = Some wildcard_baseline.
Proof.
  apply (cached_baseline_is_kept wildcard_zone_network md5_example psl_example
           "example.com" [Some "mail.example.com"; None] wildcard_state
           "example.com" wildcard_baseline).
  reflexivity.
Defined.

(** X12: in a run of [query_loop] from the start of the process, every
    record of the cache is of kind A and is stored under its own domain,
    also a baseline that was built from a CNAME answer. *)
Theorem cached_baselines_are_keyed net md5 psl root queue p r :
  _black_list (snd (query_loop net md5 psl root queue initial_state)) !! p = Some r ->
  domain r = p /\ type r = QUERY_TYPE_A.
Proof.
  rewrite query_loop_consume. cbn [_resolver initial_state]. intros H.
  apply (frame_new psl _ _ _ (consume_frame net md5 psl queue _)) in H.
  destruct (query_ns_keeps net root initial_state) as (B & _).
  rewrite B in H. destruct H as [H | (_ & D & T)]; [|auto].
  simpl in H. rewrite lookup_empty in H. discriminate.
Qed.

Lemma cached_baselines_are_keyed_witness :
  domain (mkRecord "example.com" QUERY_TYPE_A 300 ["198.51.100.9"]) = "example.com" /\
  type (mkRecord "example.com" QUERY_TYPE_A 300 ["198.51.100.9"]) = QUERY_TYPE_A.
Proof.
  apply (cached_baselines_are_keyed wildcard_zone_network md5_example psl_example
           "example.com" [Some "mail.example.com"; None]).
  vm_compute. reflexivity.
Defined.

(** X10: the parent that [_parent_domain] computes for a domain is the
    same after a run of [query_loop] as before it: the public-suffix list
    is loaded once and not replaced. *)
Theorem parent_domain_is_stable net md5 psl root queue st d :
  fst (_parent_domain psl d (snd (query_loop net md5 psl root queue st)))
  = fst (_parent_domain psl d st).
Proof.
  rewrite !parent_domain_eq. cbn [fst].
  assert (E : psl_in psl (snd (query_loop net md5 psl root queue st)) = psl_in psl st).
  { rewrite query_loop_consume.
    rewrite (frame_psl psl _ _ _ (consume_frame net md5 psl queue _)).
    destruct (_resolver st); [reflexivity|].
    destruct (query_ns_keeps net root st) as (_ & P & _).
    unfold psl_in. now rewrite P. }
  now rewrite E.
Qed.

(** ** Which resolver the pipeline asks *)

(** X2: once [_resolver] is bound to a set of nameservers, [query_loop]
    does not run the bootstrap again: it leaves [_resolver] as it is, and
    every question it sends goes through a resolver bound to that set, at
    most four per queued item. *)
Theorem pipeline_asks_bound_nameservers net md5 psl root queue st ns :
  _resolver st = Some ns ->
  _resolver (snd (query_loop net md5 psl root queue st)) = Some ns /\
  exists sq,
    trace (snd (query_loop net md5 psl root queue st)) = (trace st ++ sq)%list /\
    Forall (via_ns ns) sq /\
    (length sq <= 4 * length queue)%nat.
Proof.
  intros Hr. rewrite query_loop_consume, Hr.
  destruct (consume_frame net md5 psl queue st) as [R _ (sq & T & L & _ & V) _ _].
  split; [congruence|]. exists sq. auto.
Qed.

Lemma pipeline_asks_bound_nameservers_witness :
  _resolver (snd (query_loop wildcard_zone_network md5_example psl_example "example.com"
                    [Some "mail.example.com"; None] bootstrapped_state))
  = Some example_nameservers /\
  exists sq,
    trace (snd (query_loop wildcard_zone_network md5_example psl_example "example.com"
                  [Some "mail.example.com"; None] bootstrapped_state))
    = (trace bootstrapped_state ++ sq)%list /\
    Forall (via_ns example_nameservers) sq /\
    (length sq <= 4 * length [Some "mail.example.com"; None])%nat.
Proof.
  apply (pipeline_asks_bound_nameservers wildcard_zone_network md5_example psl_example
           "example.com" [Some "mail.example.com"; None] bootstrapped_state
           example_nameservers).
  reflexivity.
Defined.

(** ** A run without a resolver *)

Section Unbound.

Variable net : Network.
Variable md5_hexdigest : string -> string.
Variable psl : string -> string.

Lemma query_a_cname_unbound d st :
  _resolver st = None ->
  snd (query_a_cname net md5_hexdigest psl d st) = set_psl (Some (psl_in psl st)) st /\
  (fst (query_a_cname net md5_hexdigest psl d st) = Return None \/
   exists e, fst (query_a_cname net md5_hexdigest psl d st) = Raise e).
Proof.
  intros Hr. destruct (fst (_parent_domain psl d st)) as [p|e] eqn:Hp.
  - rewrite (query_a_cname_eq net md5_hexdigest psl d st p Hp).
    assert (E : before_lookup net md5_hexdigest psl d st = set_psl (Some (psl_in psl st)) st).
    { unfold before_lookup. rewrite parent_domain_eq in *. cbn [fst] in Hp. rewrite Hp.
      set (st1 := set_psl (Some (psl_in psl st)) st).
      unfold ensure_baseline, bind, gets, run_thread, ret.
      destruct (_black_list st1 !! p); [reflexivity|].
      now rewrite (query_pan_dns_unbound net md5_hexdigest p st1 Hr). }
    rewrite E, lookup_loop_unbound by exact Hr. auto.
  - rewrite (query_a_cname_no_parent net md5_hexdigest psl d st e Hp). eauto.
Qed.

Lemma consume_unbound queue st :
  _resolver st = None ->
  trace (snd (consume net md5_hexdigest psl queue st)) = trace st /\
  _black_list (snd (consume net md5_hexdigest psl queue st)) = _black_list st /\
  log (snd (consume net md5_hexdigest psl queue st)) = log st.
Proof.
  revert st. induction queue as [|[d|] queue IH]; intros st Hr; [auto | | auto].
  rewrite consume_cons.
  destruct (query_a_cname_unbound d st Hr) as [Hs Hf].
  destruct (query_a_cname net md5_hexdigest psl d st) as [o st1].
  cbn [fst snd] in *. subst st1.
  destruct Hf as [-> | [e ->]]; [|auto].
  apply (IH (set_psl (Some (psl_in psl st)) st) Hr).
Qed.

End Unbound.

(** X5: when the bootstrap leaves no resolver (the NS question or the
    lookup of a host failed), [query_loop] sends no question after those
    of the bootstrap, caches nothing and reports nothing, whatever the
    queue holds. *)
Theorem no_resolver_no_report net md5 psl root queue st :
  _resolver st = None ->
  _resolver (snd (_query_ns net root st)) = None ->
  trace (snd (query_loop net md5 psl root queue st)) = trace (snd (_query_ns net root st)) /\
  _black_list (snd (query_loop net md5 psl root queue st)) = _black_list st /\
  reported (log (snd (query_loop net md5 psl root queue st))) = reported (log st).
Proof.
  intros Hr Hn. rewrite query_loop_consume, Hr.
  destruct (consume_unbound net md5 psl queue (snd (_query_ns net root st)) Hn)
    as (T & B & L).
  destruct (query_ns_keeps net root st) as (B' & _ & L').
  rewrite T, B, L, B', L'. auto.
Qed.

Lemma no_resolver_no_report_witness :
  trace (snd (query_loop one_ns_host_down md5_example psl_example "example.com"
                [Some "www.example.com"; Some "mail.example.com"; None] initial_state))
  = trace (snd (_query_ns one_ns_host_down "example.com" initial_state)) /\
  _black_list (snd (query_loop one_ns_host_down md5_example psl_example "example.com"
                      [Some "www.example.com"; Some "mail.example.com"; None]
                      initial_state)) = ∅ /\
  reported (log (snd (query_loop one_ns_host_down md5_example psl_example "example.com"
                        [Some "www.example.com"; Some "mail.example.com"; None]
                        initial_state))) = [].
Proof.
  apply (no_resolver_no_report one_ns_host_down md5_example psl_example "example.com"
           [Some "www.example.com"; Some "mail.example.com"; None] initial_state);
    reflexivity.
Defined.

(** ** The first candidate under a parent *)

Section FirstSight.

Variable net : Network.
Variable md5_hexdigest : string -> string.
Variable psl : string -> string.

Lemma before_lookup_populates d st p ns :
  fst (_parent_domain psl d st) = Return p ->
  _resolver st = Some ns ->
  is_ascii p = true ->
  _black_list st !! p = None ->
  let st2 := before_lookup net md5_hexdigest psl d st in
  _resolver st2 = Some ns /\
  psl_in psl st2 = psl_in psl st /\
  trace st2 = (trace st ++ [baseline_A md5_hexdigest ns p;
                            baseline_CNAME md5_hexdigest ns p])%list /\
  _black_list st2 =
    <[p := baseline_record p
             (answer_hosts net (trace st) (baseline_A md5_hexdigest ns p))
             (answer_cname net (trace st ++ [baseline_A md5_hexdigest ns p])
                (baseline_CNAME md5_hexdigest ns p))]> (_black_list st).
Proof.
  intros Hp Hr Ha Hb. unfold before_lookup. rewrite parent_domain_eq in *.
  cbn [fst] in Hp. rewrite Hp.
  set (st1 := set_psl (Some (psl_in psl st)) st).
  unfold ensure_baseline, bind, gets, run_thread. 
  change (_black_list st1 !! p) with (_black_list st !! p). rewrite Hb. cbn [fst snd].
  rewrite (query_pan_dns_eq net md5_hexdigest p st1 ns Hr Ha). cbn [snd]. cbv zeta.
  destruct (answer (baseline_record p _ _)); simpl; rewrite <- ?app_assoc; auto.
Qed.

Lemma before_lookup_not_ascii d st p ns :
  fst (_parent_domain psl d st) = Return p ->
  _resolver st = Some ns ->
  is_ascii p = false ->
  _black_list st !! p = None ->
  before_lookup net md5_hexdigest psl d st = set_psl (Some (psl_in psl st)) st.
Proof.
  intros Hp Hr Ha Hb. unfold before_lookup. rewrite parent_domain_eq in *.
  cbn [fst] in Hp. rewrite Hp.
  set (st1 := set_psl (Some (psl_in psl st)) st).
  unfold ensure_baseline, bind, gets, run_thread.
  change (_black_list st1 !! p) with (_black_list st !! p). rewrite Hb. cbn [fst snd].
  now rewrite (query_pan_dns_not_ascii net md5_hexdigest p st1 ns Hr Ha).
Qed.

End FirstSight.

Lemma is_pan_dns_empty_baseline_aux psl record st parent pan :
  fst (_parent_domain psl (domain record) st) = Return parent ->
  _black_list st !! parent = Some pan ->
  answer pan = [] ->
  fst (_is_pan_dns psl record st) = Return false.
Proof.
  intros Hp Hb He.
  rewrite (is_pan_dns_cached psl record st parent pan Hp Hb). now rewrite He.
Qed.

Lemma forallb_map_host (P : string -> bool) (l : list HostResult) :
  forallb P (map host l) = forallb (fun x => P (host x)) l.
Proof. induction l as [|x l IH]; simpl; [reflexivity | now rewrite IH]. Qed.

Lemma baseline_record_A_only p (w : HostResult) (ws : list HostResult) :
  baseline_record p (Some (w :: ws)) None
  = mkRecord p QUERY_TYPE_A (host_ttl w) (map host (w :: ws)).
Proof.
  unfold baseline_record, pan_dns_update. cbv zeta. now rewrite fold_append_hosts.
Qed.

Lemma is_pan_dns_record_A psl d (f : HostResult) (fs : list HostResult) st p pan :
  fst (_parent_domain psl d st) = Return p ->
  _black_list st !! p = Some pan ->
  answer pan <> [] ->
  fst (_is_pan_dns psl (record_A d f fs) st)
  = Return (forallb (fun x => str_in (host x) (answer pan)) (f :: fs)
            && (host_ttl f =? ttl pan)).
Proof.
  intros Hp Hb Hne.
  rewrite (is_pan_dns_cached psl (record_A d f fs) st p pan Hp Hb).
  unfold all_in. cbn [record_A answer ttl type QueryType_eqb andb].
  rewrite forallb_map_host. now destruct (answer pan).
Qed.

(** X7: the first candidate under a parent whose synthetic name has an A
    answer and no canonical name: the baseline is built from that answer,
    and the candidate's A record is suppressed exactly when all its
    addresses are among the wildcard's and its ttl is the ttl of the first
    wildcard record; otherwise it is returned. *)
Theorem first_candidate_under_wildcard net md5 psl d st p ns
    (w : HostResult) (ws : list HostResult) (f : HostResult) (fs : list HostResult) :
  fst (_parent_domain psl d st) = Return p ->
  _resolver st = Some ns ->
  is_ascii p = true ->
  _black_list st !! p = None ->
  answer_hosts net (trace st) (baseline_A md5 ns p) = Some (w :: ws) ->
  answer_cname net (trace st ++ [baseline_A md5 ns p]) (baseline_CNAME md5 ns p) = None ->
  answer_hosts net (trace st ++ [baseline_A md5 ns p; baseline_CNAME md5 ns p])
    (question_A ns d) = Some (f :: fs) ->
  fst (query_a_cname net md5 psl d st) =
  if forallb (fun x => str_in (host x) (map host (w :: ws))) (f :: fs)
     && (host_ttl f =? host_ttl w)
  then Return None
  else Return (Some (record_A d f fs)).
Proof.
  intros Hp Hr Ha Hb HA HC Hd.
  destruct (before_lookup_populates net md5 psl d st p ns Hp Hr Ha Hb)
    as (R2 & P2 & T2 & B2).
  rewrite (query_a_cname_eq net md5 psl d st p Hp).
  rewrite (lookup_loop_bound net d _ ns R2), T2, Hd.
  set (st3 := add_trace _ _).
  rewrite (is_pan_dns_record_A psl d f fs st3 p
             (mkRecord p QUERY_TYPE_A (host_ttl w) (map host (w :: ws)))).
  - cbn [answer ttl].
    destruct (forallb _ (f :: fs) && (host_ttl f =? host_ttl w)); reflexivity.
  - rewrite parent_domain_eq in *. cbn [fst] in *.
    change (psl_in psl st3) with (psl_in psl (before_lookup net md5 psl d st)).
    now rewrite P2.
  - unfold st3. cbn [_black_list add_trace]. rewrite B2, HA, HC, baseline_record_A_only.
    apply lookup_insert_eq.
  - discriminate.
Qed.

Lemma first_candidate_under_wildcard_witness :
  fst (query_a_cname wildcard_zone_network md5_example psl_example
         "random123.example.com" bootstrapped_state) = Return None /\
  fst (query_a_cname wildcard_zone_network md5_example psl_example
         "mail.example.com" bootstrapped_state)
  = Return (Some (mkRecord "mail.example.com" QUERY_TYPE_A 3600 ["198.51.100.50"])).
Proof.
  split.
  - apply (first_candidate_under_wildcard wildcard_zone_network md5_example psl_example
             "random123.example.com" bootstrapped_state "example.com" example_nameservers
             (mkHost "198.51.100.9" 300) [] (mkHost "198.51.100.9" 300) []);
      reflexivity.
  - apply (first_candidate_under_wildcard wildcard_zone_network md5_example psl_example
             "mail.example.com" bootstrapped_state "example.com" example_nameservers
             (mkHost "198.51.100.9" 300) [] (mkHost "198.51.100.50" 3600) []);
      reflexivity.
Defined.

(** X8: the first candidate under a parent whose synthetic name does not
    resolve: the baseline is stored with an empty answer, and
    [query_a_cname] returns the record that the lookups find, of kind A
    when the A question is answered with a record, of kind CNAME when only
    the CNAME question is answered. *)
Theorem first_candidate_without_wildcard net md5 psl d st p ns :
  fst (_parent_domain psl d st) = Return p ->
  _resolver st = Some ns ->
  is_ascii p = true ->
  _black_list st !! p = None ->
  answer_hosts net (trace st) (baseline_A md5 ns p) = None ->
  answer_cname net (trace st ++ [baseline_A md5 ns p]) (baseline_CNAME md5 ns p) = None ->
  let h := (trace st ++ [baseline_A md5 ns p; baseline_CNAME md5 ns p])%list in
  _black_list (snd (query_a_cname net md5 psl d st)) !! p
  = Some (mkRecord p QUERY_TYPE_A (-1) []) /\
  (forall f fs,
     answer_hosts net h (question_A ns d) = Some (f :: fs) ->
     fst (query_a_cname net md5 psl d st) = Return (Some (record_A d f fs))) /\
  (forall c,
     answer_hosts net h (question_A ns d) = None ->
     answer_cname net (h ++ [question_A ns d]) (question_CNAME ns d) = Some c ->
     fst (query_a_cname net md5 psl d st) = Return (Some (record_CNAME d c))).
Proof.
  intros Hp Hr Ha Hb HA HC h.
  destruct (before_lookup_populates net md5 psl d st p ns Hp Hr Ha Hb)
    as (R2 & P2 & T2 & B2).
  rewrite HA, HC in B2. fold h in T2.
  set (st2 := before_lookup net md5 psl d st) in *.
  assert (Hv : forall r st3,
            domain r = d -> psl_in psl st3 = psl_in psl st ->
            _black_list st3 = _black_list st2 ->
            fst (_is_pan_dns psl r st3) = Return false).
  { intros r st3 D P B.
    apply (is_pan_dns_empty_baseline_aux psl r st3 p (baseline_record p None None)).
    - rewrite D. rewrite parent_domain_eq in *. cbn [fst] in *. now rewrite P.
    - rewrite B, B2. apply lookup_insert_eq.
    - reflexivity. }
  rewrite (query_a_cname_eq net md5 psl d st p Hp). fold st2.
  rewrite (lookup_loop_bound net d st2 ns R2), T2.
  split; [|split].
  - destruct (answer_hosts net h (question_A ns d)) as [[|f fs]|];
      try destruct (answer_cname net (h ++ [question_A ns d]) (question_CNAME ns d));
      cbn [snd _black_list set_psl add_trace]; rewrite B2; apply lookup_insert_eq.
  - intros f fs E. rewrite E. cbn [fst]. rewrite Hv; auto.
  - intros c E1 E2. rewrite E1, E2. cbn [fst]. rewrite Hv; auto.
Qed.

Lemma first_candidate_without_wildcard_witness :
  fst (query_a_cname both_kinds_network md5_example psl_example
         "www.example.com" bootstrapped_state)
  = Return (Some (mkRecord "www.example.com" QUERY_TYPE_A 60 ["203.0.113.80"])) /\
  fst (query_a_cname cname_only_network md5_example psl_example
         "shop.example.com" bootstrapped_state)
  = Return (Some (mkRecord "shop.example.com" QUERY_TYPE_CNAME 3600 ["shops.example.net"])).
Proof.
  split.
  - destruct (first_candidate_without_wildcard both_kinds_network md5_example psl_example
                "www.example.com" bootstrapped_state "example.com" example_nameservers
                eq_refl eq_refl eq_refl eq_refl eq_refl eq_refl) as (_ & HA & _).
    exact (HA (mkHost "203.0.113.80" 60) [] eq_refl).
  - destruct (first_candidate_without_wildcard cname_only_network md5_example psl_example
                "shop.example.com" bootstrapped_state "example.com" example_nameservers
                eq_refl eq_refl eq_refl eq_refl eq_refl eq_refl) as (_ & _ & HC).
    exact (HC (mkCname "shops.example.net" 3600) eq_refl eq_refl).
Defined.

(** X6: a candidate whose parent has a character outside ASCII: the
    populator fails on [encode] before it asks anything, so the parent is
    never cached; when the A question for the candidate is answered with a
    record, [query_a_cname] raises [KeyError] for the parent instead of
    returning the record. *)
Theorem non_ascii_parent_raises_key_error net md5 psl d st p ns
    (f : HostResult) (fs : list HostResult) :
  fst (_parent_domain psl d st) = Return p ->
  _resolver st = Some ns ->
  is_ascii p = false ->
  _black_list st !! p = None ->
  answer_hosts net (trace st) (question_A ns d) = Some (f :: fs) ->
  fst (query_a_cname net md5 psl d st) = Raise (KeyError p) /\
  trace (snd (query_a_cname net md5 psl d st)) = (trace st ++ [question_A ns d])%list /\
  _black_list (snd (query_a_cname net md5 psl d st)) = _black_list st.
Proof.
  intros Hp Hr Ha Hb Hd.
  rewrite (query_a_cname_eq net md5 psl d st p Hp).
  rewrite (before_lookup_not_ascii net md5 psl d st p ns Hp Hr Ha Hb).
  set (st1 := set_psl (Some (psl_in psl st)) st).
  rewrite (lookup_loop_bound net d st1 ns Hr).
  change (trace st1) with (trace st). rewrite Hd. cbn [fst snd].
  assert (Hk : fst (_is_pan_dns psl (record_A d f fs) (add_trace (question_A ns d) st1))
               = Raise (KeyError p)).
  { unfold _is_pan_dns, bind, gets. rewrite parent_domain_eq.
    rewrite parent_domain_eq in Hp. cbn [fst] in Hp.
    change (psl_in psl (add_trace (question_A ns d) st1)) with (psl_in psl st).
    cbn [domain record_A]. rewrite Hp.
    change (_black_list (add_trace (question_A ns d) st1)) with (_black_list st).
    now rewrite Hb. }
  rewrite Hk. repeat split.
Qed.

Lemma non_ascii_parent_raises_key_error_witness :
  fst (query_a_cname idn_network md5_example psl_example idn_domain bootstrapped_state)
  = Raise (KeyError ("b" ++ String (ascii_of_nat 252) "cher.de")).
Proof.
  apply (non_ascii_parent_raises_key_error idn_network md5_example psl_example
           idn_domain bootstrapped_state ("b" ++ String (ascii_of_nat 252) "cher.de")
           example_nameservers (mkHost "192.0.2.7" 600) []);
    reflexivity.
Defined.

(** ** The record that the populator stores *)

(** X13: the baseline that [_query_pan_dns] stores for a parent: its answer
    is the hosts of the A answer, in order and with repetitions, followed
    by the canonical name when the CNAME question is answered with a name
    that is not among them; its ttl is the ttl of the CNAME answer when
    that name was appended and the ttl is not 0, otherwise the ttl of the
    first A record, otherwise -1. *)
Theorem stored_baseline net md5 p st ns :
  _resolver st = Some ns ->
  is_ascii p = true ->
  let a := answer_hosts net (trace st) (baseline_A md5 ns p) in
  let c := answer_cname net (trace st ++ [baseline_A md5 ns p]) (baseline_CNAME md5 ns p) in
  let hosts := match a with Some l => map host l | None => [] end in
  let ttl_A := match a with Some (first :: _) => host_ttl first | _ => -1 end in
  _black_list (snd (_query_pan_dns net md5 p st)) !! p
  = Some (mkRecord p QUERY_TYPE_A
            (match c with
             | Some c' =>
                 if negb (str_in (cname c') hosts) && truthy (cname_ttl c')
                 then cname_ttl c' else ttl_A
             | None => ttl_A
             end)
            (hosts ++ match c with
                      | Some c' => if str_in (cname c') hosts then [] else [cname c']
                      | None => []
                      end)).
Proof.
  intros Hr Ha a c hosts ttl_A.
  rewrite (query_pan_dns_eq net md5 p st ns Hr Ha). cbn [snd]. cbv zeta.
  fold a c.
  assert (E : _black_list
                (set_black_list (<[p := baseline_record p a c]> (_black_list st))
                   match answer (baseline_record p a c) with
                   | [] => add_trace (baseline_CNAME md5 ns p)
                             (add_trace (baseline_A md5 ns p) st)
                   | _ :: _ =>
                       add_log (LogDebugPan p (answer (baseline_record p a c)))
                         (add_trace (baseline_CNAME md5 ns p)
                            (add_trace (baseline_A md5 ns p) st))
                   end)
              = <[p := baseline_record p a c]> (_black_list st)) by reflexivity.
  rewrite E, lookup_insert_eq. f_equal.
  unfold baseline_record, hosts, ttl_A. cbv zeta.
  destruct a as [[|first rest]|], c as [c'|]; unfold pan_dns_update;
    rewrite ?fold_append_hosts; cbn [answer ttl domain type Record__init__ app py_in];
    try reflexivity;
    cbn -[str_in truthy];
    repeat match goal with
           | |- context [str_in ?x ?l] => destruct (str_in x l)
           end;
    cbn -[truthy];
    repeat match goal with
           | |- context [truthy ?t] => destruct (truthy t)
           end;
    rewrite ?app_nil_r; reflexivity.
Qed.

Lemma stored_baseline_witness :
  _black_list (snd (_query_pan_dns wildcard_zone_network md5_example "example.com"
                      bootstrapped_state)) !! "example.com"
  = Some (mkRecord "example.com" QUERY_TYPE_A 300 ["198.51.100.9"]).
Proof.
  apply (stored_baseline wildcard_zone_network md5_example "example.com"
           bootstrapped_state example_nameservers); reflexivity.
Defined.

(** ** What [query_loop] reports *)

Section Reports.

Variable net : Network.
Variable md5_hexdigest : string -> string.
Variable psl : string -> string.

Lemma reported_app (l1 l2 : list LogEntry) :
  reported (l1 ++ l2) = (reported l1 ++ reported l2)%list.
Proof.
  induction l1 as [|x l1 IH]; [reflexivity|].
  destruct x; simpl; now rewrite IH.
Qed.

Lemma ensure_baseline_reported p st :
  reported (log (snd (ensure_baseline net md5_hexdigest p st))) = reported (log st).
Proof.
  unfold ensure_baseline, bind, gets, run_thread, ret.
  destruct (_black_list st !! p); [reflexivity|]. cbn [snd].
  destruct (_resolver st) as [ns|] eqn:Hr.
  - destruct (is_ascii p) eqn:Ha.
    + rewrite (query_pan_dns_eq net md5_hexdigest p st ns Hr Ha). cbn [snd]. cbv zeta.
      destruct (answer (baseline_record p _ _)); simpl; [reflexivity|].
      rewrite reported_app. simpl. apply app_nil_r.
    + now rewrite (query_pan_dns_not_ascii net md5_hexdigest p st ns Hr Ha).
  - now rewrite (query_pan_dns_unbound net md5_hexdigest p st Hr).
Qed.

Lemma lookup_loop_log d st :
  log (snd (lookup_loop net d [QUERY_TYPE_A; QUERY_TYPE_CNAME] None st)) = log st.
Proof.
  destruct (_resolver st) as [ns|] eqn:Hr.
  - rewrite (lookup_loop_bound net d st ns Hr).
    destruct (answer_hosts net (trace st) _) as [[|first rest]|]; reflexivity.
  - now rewrite (lookup_loop_unbound net d st Hr).
Qed.

Lemma query_a_cname_reported d st :
  reported (log (snd (query_a_cname net md5_hexdigest psl d st))) = reported (log st).
Proof.
  destruct (fst (_parent_domain psl d st)) as [p|e] eqn:Hp.
  - rewrite (query_a_cname_eq net md5_hexdigest psl d st p Hp).
    assert (H2 : reported (log (before_lookup net md5_hexdigest psl d st))
                 = reported (log st)).
    { unfold before_lookup. rewrite parent_domain_eq in *. cbn [fst] in Hp. rewrite Hp.
      now rewrite ensure_baseline_reported. }
    pose proof (lookup_loop_log d (before_lookup net md5_hexdigest psl d st)) as H3.
    destruct (lookup_loop net d [QUERY_TYPE_A; QUERY_TYPE_CNAME] None _)
      as [[[r|]|e] st3]; cbn [snd] in *; simpl; now rewrite H3.
  - now rewrite (query_a_cname_no_parent net md5_hexdigest psl d st e Hp).
Qed.

Lemma lookup_loop_shape d st r :
  fst (lookup_loop net d [QUERY_TYPE_A; QUERY_TYPE_CNAME] None st) = Return (Some r) ->
  domain r = d /\ candidate_shape r.
Proof.
  destruct (_resolver st) as [ns|] eqn:Hr.
  - rewrite (lookup_loop_bound net d st ns Hr).
    assert (HC : forall c, domain (record_CNAME d c) = d /\
                           candidate_shape (record_CNAME d c)).
    { intros c. split; [reflexivity|]. right. split; [reflexivity|].
      split; [eexists; reflexivity|]. simpl. unfold truthy.
      destruct (cname_ttl c =? 0) eqn:E; simpl; [lia|].
      now apply Z.eqb_neq in E. }
    destruct (answer_hosts net (trace st) _) as [[|first rest]|]; cbn [fst].
    + destruct (answer_cname net _ _) as [c|]; intros H; [|discriminate].
      injection H as <-. apply HC.
    + intros H. injection H as <-. split; [reflexivity|].
      left. split; [reflexivity | discriminate].
    + destruct (answer_cname net _ _) as [c|]; intros H; [|discriminate].
      injection H as <-. apply HC.
  - rewrite (lookup_loop_unbound net d st Hr). discriminate.
Qed.

(** A record that [query_a_cname] returns. *)
Lemma query_a_cname_result d st r :
  fst (query_a_cname net md5_hexdigest psl d st) = Return (Some r) ->
  domain r = d /\ candidate_shape r /\
  fst (_is_pan_dns psl r (snd (query_a_cname net md5_hexdigest psl d st))) = Return false.
Proof.
  destruct (fst (_parent_domain psl d st)) as [p|e] eqn:Hp.
  - rewrite (query_a_cname_eq net md5_hexdigest psl d st p Hp).
    pose proof (lookup_loop_shape d (before_lookup net md5_hexdigest psl d st)) as Hs.
    destruct (lookup_loop net d [QUERY_TYPE_A; QUERY_TYPE_CNAME] None _)
      as [[[r'|]|e] st3]; cbn [fst snd] in *; try discriminate.
    intros H. destruct (Hs r' eq_refl) as [D S].
    destruct (fst (_is_pan_dns psl r' st3)) as [[|]|e] eqn:V; simpl in H;
      try discriminate.
    injection H as <-. repeat split; auto.
    rewrite <- V. apply is_pan_dns_same; reflexivity.
  - rewrite (query_a_cname_no_parent net md5_hexdigest psl d st e Hp). discriminate.
Qed.

(** A verdict of [_is_pan_dns] stays through later steps of the pipeline. *)
Lemma is_pan_dns_stable n st st' r b :
  pipeline_frame psl n st st' ->
  fst (_is_pan_dns psl r st) = Return b ->
  fst (_is_pan_dns psl r st') = Return b.
Proof.
  intros [_ P _ K _]. unfold _is_pan_dns, bind, gets. rewrite !parent_domain_eq, P.
  destruct (if String.eqb _ _ then _ else _) as [p|e]; [|discriminate].
  cbn [_black_list set_psl].
  destruct (_black_list st !! p) as [pan|] eqn:E; [|simpl; discriminate].
  rewrite (K p pan E).
  destruct (answer pan); [auto|].
  destruct (_ && _); [auto|]. destruct (_ && _); auto.
Qed.

Lemma consume_reports queue st :
  exists rs,
    reported (log (snd (consume net md5_hexdigest psl queue st)))
    = (reported (log st) ++ rs)%list /\
    Forall (fun r =>
              Some (domain r) ∈ queue /\ candidate_shape r /\
              fst (_is_pan_dns psl r (snd (consume net md5_hexdigest psl queue st)))
              = Return false) rs.
Proof.
  revert st. induction queue as [|[d|] queue IH]; intros st.
  - exists []. rewrite app_nil_r. split; [reflexivity | constructor].
  - rewrite consume_cons.
    pose proof (query_a_cname_reported d st) as Hl.
    pose proof (query_a_cname_result d st) as Hres.
    destruct (query_a_cname net md5_hexdigest psl d st) as [[[r|]|e] st1];
      cbn [fst snd] in *.
    + destruct (Hres r eq_refl) as (D & S & V).
      destruct (IH (add_log (LogInfo r) st1)) as (rs & Hrs & F).
      exists (r :: rs). split.
      * rewrite Hrs. cbn [log add_log]. rewrite reported_app, Hl. simpl.
        now rewrite <- app_assoc.
      * constructor.
        -- split; [rewrite D; left|]. split; [exact S|].
           apply (is_pan_dns_stable _ (add_log (LogInfo r) st1) _ r false
                    (consume_frame net md5_hexdigest psl queue _)).
           rewrite <- V. apply is_pan_dns_same; reflexivity.
        -- eapply Forall_impl; [exact F|]. intros x (Hx & Sx & Vx).
           split; [now right | auto].
    + destruct (IH st1) as (rs & Hrs & F). exists rs. split; [now rewrite Hrs, Hl|].
      eapply Forall_impl; [exact F|]. intros x (Hx & Sx & Vx). split; [now right | auto].
    + exists []. rewrite app_nil_r. split; [exact Hl | constructor].
  - exists []. rewrite app_nil_r. split; [reflexivity | constructor].
Qed.

End Reports.

(** X4: every record that a run of [query_loop] reports with [log.info]
    is a record for a queued candidate, of kind A with at least one
    address or of kind CNAME with exactly one name and a ttl other than 0,
    and [_is_pan_dns] is false of it at the end of the run: no wildcard
    match is reported. *)
Theorem reported_records_are_not_wildcards net md5 psl root queue st :
  exists rs,
    reported (log (snd (query_loop net md5 psl root queue st)))
    = (reported (log st) ++ rs)%list /\
    Forall (fun r =>
              Some (domain r) ∈ queue /\ candidate_shape r /\
              fst (_is_pan_dns psl r (snd (query_loop net md5 psl root queue st)))
              = Return false) rs.
Proof.
  rewrite query_loop_consume.
  destruct (consume_reports net md5 psl queue
              (match _resolver st with
               | Some _ => st
               | None => snd (_query_ns net root st)
               end)) as (rs & Hrs & F).
  exists rs. split; [|exact F]. rewrite Hrs.
  destruct (_resolver st); [reflexivity|].
  destruct (query_ns_keeps net root st) as (_ & _ & L). now rewrite L.
Qed.

Lemma bootstrap_binds_every_address_witness :
  fst (_query_ns wildcard_zone_network "example.com" initial_state) = Return tt /\
  trace (snd (_query_ns wildcard_zone_network "example.com" initial_state))
  = [question_NS "example.com";
     question_host (mkHost "ns1.example.com" 3600);
     question_host (mkHost "ns2.example.com" 3600)] /\
  exists ns,
    _resolver (snd (_query_ns wildcard_zone_network "example.com" initial_state)) = Some ns /\
    ns <> ∅ /\
    forall ip, ip ∈ ns <->
               exists a_record a,
                 a_record ∈ [[mkHost "203.0.113.1" 3600]; [mkHost "203.0.113.2" 3600]] /\
                 a ∈ a_record /\ host a = ip.
Proof.
  apply (bootstrap_binds_every_address wildcard_zone_network "example.com" initial_state
           (mkHost "ns1.example.com" 3600) [mkHost "ns2.example.com" 3600]
           [[mkHost "203.0.113.1" 3600]; [mkHost "203.0.113.2" 3600]]);
    try reflexivity.
  exists [mkHost "203.0.113.1" 3600], (mkHost "203.0.113.1" 3600).
  split; constructor.
Defined.

(** X16: when the NS question is answered, [_query_ns] sends after it
    exactly one A question per host of the answer, in the order of the
    answer and through a default resolver each, whether the lookups
    succeed or fail. *)
Theorem bootstrap_asks_every_host net root st (names : list HostResult) :
  answer_hosts net (trace st) (question_NS root) = Some names ->
  trace (snd (_query_ns net root st))
  = (trace st ++ question_NS root :: map question_host names)%list.
Proof.
  intros Hns. rewrite query_ns_eq, Hns. destruct names as [|n names]; [reflexivity|].
  destruct (gather_trace net (n :: names) (add_trace (question_NS root) st)) as [Ht _].
  destruct (gather (ns_host_lookups net (n :: names)) (add_trace (question_NS root) st))
    as [[a|e] st2]; cbn [snd] in *; simpl; rewrite Ht; simpl;
    now rewrite <- app_assoc.
Qed.

Lemma bootstrap_asks_every_host_witness :
  trace (snd (_query_ns one_ns_host_down "example.com" initial_state))
  = [question_NS "example.com";
     question_host (mkHost "ns1.example.com" 3600);
     question_host (mkHost "ns2.example.com" 3600)].
Proof.
  apply (bootstrap_asks_every_host one_ns_host_down "example.com" initial_state
           [mkHost "ns1.example.com" 3600; mkHost "ns2.example.com" 3600]).
  reflexivity.
Defined.
